(** * generate_arxiv_snapshot.py: a shallow embedding and its properties

    The script fetches Atom feeds for a list of authors, parses the entries
    into paper records, merges and sorts them and renders one HTML page.

    A Python [str] is modelled by the Rocq [string] that holds its UTF-8
    encoding (one [ascii] per byte).  Comparison of UTF-8 encodings byte by
    byte agrees with Python's comparison by code point, and every pattern the
    script searches for or replaces is plain ASCII.  [None] is modelled by
    [option], an exception by the [Raise] of a result type. *)

From Stdlib Require Import Ascii DecimalString OrdersEx.
From Stdlib Require String.
From stdpp Require Import base list strings gmap sorting.

(** ** Python string operations used by the script *)

Module PyStr.

(** [sub in s]. *)
Fixpoint contains (sub s : string) : bool :=
  String.prefix sub s ||
  match s with
  | EmptyString => false
  | String _ s' => contains sub s'
  end.

(** [s[n:]]. *)
Fixpoint drop (n : nat) (s : string) : string :=
  match n, s with
  | O, _ => s
  | S _, EmptyString => EmptyString
  | S k, String _ s' => drop k s'
  end.

(** [new.join(s)] for the characters of [s], with [new] also before the first
    and after the last one: what [s.replace("", new)] returns. *)
Fixpoint interleave (new s : string) : string :=
  match s with
  | EmptyString => new
  | String c s' => new +:+ String c (interleave new s')
  end.

(** The left-to-right scan of [str.replace] for a non-empty [old].  [skip]
    counts the characters of the occurrence just matched that are still to be
    passed over, so that occurrences never overlap. *)
Fixpoint replace_go (old new : string) (skip : nat) (s : string) : string :=
  match s with
  | EmptyString => EmptyString
  | String c s' =>
      match skip with
      | S k => replace_go old new k s'
      | O =>
          if String.prefix old s
          then new +:+ replace_go old new (String.length old - 1) s'
          else String c (replace_go old new 0 s')
      end
  end.

(** [s.replace(old, new)]. *)
Definition replace (old new s : string) : string :=
  match old with
  | EmptyString => interleave new s
  | String _ _ => replace_go old new 0 s
  end.

(** The scan of [str.split(sep)] for a non-empty [sep]; [cur] is the piece
    being read. *)
Fixpoint split_go (sep : string) (skip : nat) (cur s : string) : list string :=
  match s with
  | EmptyString => [cur]
  | String c s' =>
      match skip with
      | S k => split_go sep k cur s'
      | O =>
          if String.prefix sep s
          then cur :: split_go sep (String.length sep - 1) EmptyString s'
          else split_go sep 0 (cur +:+ String c EmptyString) s'
      end
  end.

(** [s.split(sep)]; Python raises [ValueError] for an empty separator. *)
Definition split (sep s : string) : option (list string) :=
  match sep with
  | EmptyString => None
  | String _ _ => Some (split_go sep 0 EmptyString s)
  end.

(** Characters that [str.isspace] accepts, within ASCII. *)
Definition is_space (c : ascii) : bool :=
  let n := nat_of_ascii c in
  ((9 <=? n) && (n <=? 13)) || ((28 <=? n) && (n <=? 32)).

Fixpoint lstrip (s : string) : string :=
  match s with
  | EmptyString => EmptyString
  | String c s' => if is_space c then lstrip s' else s
  end.

Fixpoint rstrip (s : string) : string :=
  match s with
  | EmptyString => EmptyString
  | String c s' =>
      match rstrip s' with
      | EmptyString => if is_space c then EmptyString else String c EmptyString
      | r => String c r
      end
  end.

(** [s.strip()] (whitespace outside ASCII is not modelled). *)
Definition strip (s : string) : string := rstrip (lstrip s).

(** [sep.join(l)]; raises [TypeError] when an item is [None]. *)
Fixpoint join (sep : string) (l : list (option string)) : option string :=
  match l with
  | [] => Some EmptyString
  | None :: _ => None
  | [Some x] => Some x
  | Some x :: l' =>
      match join sep l' with
      | Some r => Some (x +:+ sep +:+ r)
      | None => None
      end
  end.

(** [str(n)] for a non-negative integer. *)
Definition str_of_nat (n : nat) : string := NilZero.string_of_uint (Nat.to_uint n).

(** Number of occurrences of the character [c]. *)
Fixpoint count_char (c : ascii) (s : string) : nat :=
  match s with
  | EmptyString => 0
  | String d s' => (if Ascii.eqb c d then 1 else 0) + count_char c s'
  end.

(** Truth value of a string. *)
Definition nonempty (s : string) : bool :=
  match s with EmptyString => false | String _ _ => true end.

End PyStr.

(** [html.escape(s)] with the default [quote=True]: five replacements in this
    order, the ampersand first. *)
Definition dquote : string := String "034"%char EmptyString.
Definition squote : string := String "039"%char EmptyString.

Definition escape (s : string) : string :=
  let s := PyStr.replace "&" "&amp;" s in
  let s := PyStr.replace "<" "&lt;" s in
  let s := PyStr.replace ">" "&gt;" s in
  let s := PyStr.replace dquote "&quot;" s in
  PyStr.replace squote "&#x27;" s.

(** ** Exceptions *)

Inductive exc : Set := AttributeError | TypeError | ValueError | IndexError | ParseError.

(** The outcome of a computation that may raise. *)
Inductive res (A : Type) : Type :=
  | Ok (x : A)
  | Raise (e : exc).
Arguments Ok {A} x.
Arguments Raise {A} e.

Definition bind {A B} (r : res A) (k : A -> res B) : res B :=
  match r with
  | Ok x => k x
  | Raise e => Raise e
  end.

Notation "x <- r ;; k" := (bind r (fun x => k))
  (at level 100, r at next level, right associativity, only parsing).

Definition is_ok {A} (r : res A) : bool :=
  match r with Ok _ => true | Raise _ => false end.

(** Attribute access or a method call on a value that may be [None]. *)
Definition attr_of {A} (o : option A) : res A :=
  match o with
  | Some x => Ok x
  | None => Raise AttributeError
  end.

(** A list comprehension whose body may raise. *)
Fixpoint comprehension {A B} (f : A -> res B) (l : list A) : res (list B) :=
  match l with
  | [] => Ok []
  | x :: l' => y <- f x ;; ys <- comprehension f l' ;; Ok (y :: ys)
  end.

(** ** The part of [xml.etree.ElementTree] the script uses *)

Module ET.

#[warnings="-register-all"]
Inductive element : Type :=
  Element (tag : string) (attrib : list (string * string))
          (text : option string) (children : list element).

Definition tag (e : element) : string := let (t, _, _, _) := e in t.
Definition attrib (e : element) : list (string * string) := let (_, a, _, _) := e in a.
(** [e.text] is [None] for an element without character data. *)
Definition text (e : element) : option string := let (_, _, t, _) := e in t.
Definition children (e : element) : list element := let (_, _, _, c) := e in c.

(** [e.find(path, ns)] for a path that is one qualified tag: the first child
    with that tag, or [None]. *)
Definition find (qtag : string) (e : element) : option element :=
  List.find (fun c => String.eqb (tag c) qtag) (children e).

(** [e.findall(path, ns)]: the children with that tag, in document order. *)
Definition findall (qtag : string) (e : element) : list element :=
  List.filter (fun c => String.eqb (tag c) qtag) (children e).

(** [e.get(key)]. *)
Definition get (key : string) (e : element) : option string :=
  snd <$> List.find (fun kv => String.eqb (fst kv) key) (attrib e).

End ET.

(** ['atom:x'] under the namespace map [ns] of [parse_atom_feed]. *)
Definition atom (local : string) : string := "{http://www.w3.org/2005/Atom}" +:+ local.

(** ** Configuration and records *)

Record author := Author {
  author_name : string;
  author_id : string;
  author_type : string
}.

Definition AUTHORS : list author :=
  [ Author "Alex Bartel" "bartel_a_1" "arxiv";
    Author "Ross Paterson" "paterson_r_1" "arxiv";
    Author "Dan Loughran" "0000-0001-5892-1564" "orcid" ].

Definition MAX_PAPERS_PER_AUTHOR : nat := 20.

Definition OUTPUT_FILE : string := "index.html".

(** The dictionary [parse_atom_feed] appends for an entry.  [title], [summary]
    and [url] are always strings there; an item of [authors] or [categories],
    [published], [updated] and [arxiv_id] can be [None]. *)
Record paper := Paper {
  title : string;
  summary : string;
  authors : list (option string);
  published : option string;
  updated : option string;
  url : string;
  arxiv_id : option string;
  categories : list (option string)
}.

(** The dictionary [main] builds for an author. *)
Record author_data := AuthorData {
  data_author : author;
  papers : list paper
}.

(** ** fetch_author_feed *)

(** The URL that [fetch_author_feed] requests. *)
Definition feed_url (a : author) : string :=
  if String.eqb (author_type a) "orcid" then
    let orcid_id :=
      PyStr.replace "http://orcid.org/" "" (PyStr.replace "https://orcid.org/" "" (author_id a)) in
    "https://arxiv.org/a/" +:+ orcid_id +:+ ".atom2"
  else
    "https://arxiv.org/a/" +:+ author_id a +:+ ".atom2".

Section Fetch.
(** [urlopen(url)] followed by [read().decode('utf-8')]: the body, or an
    exception. *)
Variable urlopen : string -> res string.

Definition fetch_author_feed (a : author) : option string :=
  match urlopen (feed_url a) with
  | Ok body => Some body
  | Raise _ => None
  end.
End Fetch.

(** ** parse_atom_feed *)

(** The list comprehension over [atom:author]. *)
Definition entry_authors (entry : ET.element) : res (list (option string)) :=
  comprehension (fun a => n <- attr_of (ET.find (atom "name") a) ;; Ok (ET.text n))
                (ET.findall (atom "author") entry).

(** The list comprehension over [atom:category]. *)
Definition entry_categories (entry : ET.element) : list (option string) :=
  map (ET.get "term") (ET.findall (atom "category") entry).

(** [pieces[-1]]. *)
Definition last_item {A} (pieces : list A) : res A :=
  match last pieces with
  | Some x => Ok x
  | None => Raise IndexError
  end.

(** Lines 90-94 on the text of the id element, which must be a string. *)
Definition arxiv_id_of_url (u : string) : res (option string) :=
  if PyStr.contains "/abs/" u then
    match PyStr.split "/abs/" u with
    | Some pieces => i <- last_item pieces ;; Ok (Some i)
    | None => Raise ValueError
    end
  else Ok None.

Definition extract_arxiv_id (id_elem : option ET.element) : res (option string) :=
  match id_elem with
  | None => Ok None
  | Some ie =>
      match ET.text ie with
      | None => Raise TypeError
      | Some u => arxiv_id_of_url u
      end
  end.

(** [x.text if x is not None else ''] *)
Definition text_or_empty (x : option ET.element) : option string :=
  match x with
  | Some e => ET.text e
  | None => Some EmptyString
  end.

(** One iteration of the loop: the entry raises, is skipped ([Ok None]) or
    yields a paper. *)
Definition process_entry (entry : ET.element) : res (option paper) :=
  let title := ET.find (atom "title") entry in
  let summary := ET.find (atom "summary") entry in
  let published := ET.find (atom "published") entry in
  let updated := ET.find (atom "updated") entry in
  let id_elem := ET.find (atom "id") entry in
  authors <- entry_authors entry ;;
  let categories := entry_categories entry in
  arxiv_id <- extract_arxiv_id id_elem ;;
  match title, id_elem with
  | Some t, Some ie =>
      title_text <- attr_of (ET.text t) ;;
      summary_text <- match summary with
                      | Some s => x <- attr_of (ET.text s) ;; Ok (PyStr.strip x)
                      | None => Ok EmptyString
                      end ;;
      u <- attr_of (ET.text ie) ;;
      Ok (Some {| title := PyStr.strip title_text;
                  summary := summary_text;
                  authors := authors;
                  published := text_or_empty published;
                  updated := text_or_empty updated;
                  url := u;
                  arxiv_id := arxiv_id;
                  categories := take 3 categories |})
  | _, _ => Ok None
  end.

(** The [for] loop over the entries, with the list [papers] built so far. *)
Fixpoint parse_entries (entries : list ET.element) (papers : list paper) : res (list paper) :=
  match entries with
  | [] => Ok papers
  | entry :: rest =>
      r <- process_entry entry ;;
      parse_entries rest (match r with Some p => papers ++ [p] | None => papers end)
  end.

Section Parse.
(** [ET.fromstring]: the root element, or [ParseError]. *)
Variable fromstring : string -> res ET.element.

Definition parse_body (xml_text : string) : res (list paper) :=
  root <- fromstring xml_text ;;
  let entries := ET.findall (atom "entry") root in
  parse_entries (take MAX_PAPERS_PER_AUTHOR entries) [].

Definition parse_atom_feed (xml_text : string) : list paper :=
  match parse_body xml_text with
  | Ok papers => papers
  | Raise _ => []
  end.
End Parse.

(** ** The texts of the page template *)

(** Lines 128-252: the document up to the heading. *)
Definition html_head : string :=
  "<!DOCTYPE html>
<html lang=" +:+ dquote +:+ "en" +:+ dquote +:+ ">
<head>
    <meta charset=" +:+ dquote +:+ "UTF-8" +:+ dquote +:+ ">
    <meta name=" +:+ dquote +:+ "viewport" +:+ dquote +:+ " content=" +:+ dquote +:+ "width=device-width, initial-scale=1.0" +:+ dquote +:+ ">
    <title>arXiv Author Papers</title>
    <style>
        * {
            margin: 0;
            padding: 0;
            box-sizing: border-box;
        }
        
        body {
            font-family: -apple-system, BlinkMacSystemFont, 'Segoe UI', Roboto, Oxygen, Ubuntu, Cantarell, sans-serif;
            background: #ffffff;
            padding: 20px;
            color: #333;
        }
        
        .container {
            max-width: 900px;
            margin: 0 auto;
        }
        
        h1 {
            font-size: 24px;
            margin-bottom: 20px;
            color: #2c3e50;
            border-bottom: 2px solid #3498db;
            padding-bottom: 10px;
        }
        
        .paper {
            background: white;
            border: 1px solid #e1e8ed;
            border-radius: 8px;
            padding: 20px;
            margin-bottom: 15px;
            transition: box-shadow 0.2s;
        }
        
        .paper:hover {
            box-shadow: 0 2px 8px rgba(0,0,0,0.1);
        }
        
        .paper-title {
            font-size: 18px;
            font-weight: 600;
            color: #2c3e50;
            margin-bottom: 8px;
            line-height: 1.4;
        }
        
        .paper-title a {
            color: #3498db;
            text-decoration: none;
        }
        
        .paper-title a:hover {
            text-decoration: underline;
        }
        
        .paper-authors {
            color: #555;
            font-size: 14px;
            margin-bottom: 8px;
        }
        
        .paper-meta {
            display: flex;
            gap: 15px;
            font-size: 13px;
            color: #7f8c8d;
            margin-bottom: 10px;
            flex-wrap: wrap;
        }
        
        .paper-abstract {
            color: #555;
            font-size: 14px;
            line-height: 1.6;
            margin-top: 10px;
            padding-top: 10px;
            border-top: 1px solid #f0f0f0;
        }
        
        .paper-abstract.collapsed {
            display: -webkit-box;
            -webkit-line-clamp: 3;
            -webkit-box-orient: vertical;
            overflow: hidden;
        }
        
        .show-more {
            color: #3498db;
            cursor: pointer;
            font-size: 13px;
            margin-top: 5px;
            display: inline-block;
        }
        
        .show-more:hover {
            text-decoration: underline;
        }
        
        .no-results {
            text-align: center;
            padding: 40px;
            color: #7f8c8d;
            font-size: 16px;
        }
        
        .last-updated {
            text-align: center;
            color: #95a5a6;
            font-size: 12px;
            margin-top: 20px;
        }
    </style>
</head>
<body>
    <div class=" +:+ dquote +:+ "container" +:+ dquote +:+ ">
        <h1>Recent arXiv Papers</h1>
".

(** Lines 272-274. *)
Definition html_no_results : string :=
  "
        <div class=" +:+ dquote +:+ "no-results" +:+ dquote +:+ ">No papers found</div>
".

(** Lines 280-290, text 0 of the template. *)
Definition tmpl_paper_0 : string :=
  "
        <div class=" +:+ dquote +:+ "paper" +:+ dquote +:+ ">
            <div class=" +:+ dquote +:+ "paper-title" +:+ dquote +:+ ">
                <a href=" +:+ dquote.

(** Lines 280-290, text 1 of the template. *)
Definition tmpl_paper_1 : string :=
  dquote +:+ " target=" +:+ dquote +:+ "_blank" +:+ dquote +:+ " rel=" +:+ dquote +:+ "noopener noreferrer" +:+ dquote +:+ ">".

(** Lines 280-290, text 2 of the template. *)
Definition tmpl_paper_2 : string :=
  "</a>
            </div>
            <div class=" +:+ dquote +:+ "paper-authors" +:+ dquote +:+ ">
                ".

(** Lines 280-290, text 3 of the template. *)
Definition tmpl_paper_3 : string :=
  "
            </div>
            <div class=" +:+ dquote +:+ "paper-meta" +:+ dquote +:+ ">
                <span>üìÖ ".

(** Lines 280-290, text 4 of the template. *)
Definition tmpl_paper_4 : string :=
  "</span>
".

(** Lines 293-294, text 0 of the template. *)
Definition tmpl_badge_0 : string :=
  "                <span>üîñ ".

(** Lines 293-294, text 1 of the template. *)
Definition tmpl_badge_1 : string :=
  "</span>
".

(** Lines 297-298, text 0 of the template. *)
Definition tmpl_cats_0 : string :=
  "                <span>üè∑Ô∏è ".

(** Lines 297-298, text 1 of the template. *)
Definition tmpl_cats_1 : string :=
  "</span>
".

(** Lines 300-306, text 0 of the template. *)
Definition tmpl_summary_0 : string :=
  "            </div>
            <div class=" +:+ dquote +:+ "paper-abstract collapsed" +:+ dquote +:+ " id=" +:+ dquote.

(** Lines 300-306, text 1 of the template. *)
Definition tmpl_summary_1 : string :=
  dquote +:+ ">
                ".

(** Lines 300-306, text 2 of the template. *)
Definition tmpl_summary_2 : string :=
  "
            </div>
            <span class=" +:+ dquote +:+ "show-more" +:+ dquote +:+ " onclick=" +:+ dquote +:+ "toggleAbstract('".

(** Lines 300-306, text 3 of the template. *)
Definition tmpl_summary_3 : string :=
  "', this)" +:+ dquote +:+ ">Show more</span>
        </div>
".

(** Lines 312-330, text 0 of the template. *)
Definition tmpl_footer_0 : string :=
  "
        <div class=" +:+ dquote +:+ "last-updated" +:+ dquote +:+ ">Generated: ".

(** Lines 312-330, text 1 of the template. *)
Definition tmpl_footer_1 : string :=
  " | ".

(** Lines 312-330, text 2 of the template. *)
Definition tmpl_footer_2 : string :=
  " paper".

(** Lines 312-330, text 3 of the template. *)
Definition tmpl_footer_3 : string :=
  " displayed</div>
    </div>

    <script>
        function toggleAbstract(id, element) {
            const abstract = document.getElementById(id);
            if (abstract.classList.contains('collapsed')) {
                abstract.classList.remove('collapsed');
                element.textContent = 'Show less';
            } else {
                abstract.classList.add('collapsed');
                element.textContent = 'Show more';
            }
        }
    </script>
</body>
</html>
".

(** ** format_date *)

Section FormatDate.
(** [datetime.fromisoformat], which raises [ValueError] on a string it does
    not accept, and [dt.strftime('%b %d, %Y')]. *)
Context {datetime : Type}.
Variable fromisoformat : string -> res datetime.
Variable strftime_bdY : datetime -> string.

(** On a string: the body of the [try], and the [except] that returns the
    argument. *)
Definition format_date_str (date_string : string) : string :=
  match fromisoformat (PyStr.replace "Z" "+00:00" date_string) with
  | Ok dt => strftime_bdY dt
  | Raise _ => date_string
  end.

(** [format_date(date_string)].  [None.replace] raises [AttributeError],
    which the bare [except] catches, so [None] is returned as it is. *)
Definition format_date (date_string : option string) : option string :=
  match date_string with
  | Some s => Some (format_date_str s)
  | None => None
  end.
End FormatDate.

(** ** generate_html *)

(** Truth value of [paper['arxiv_id']]. *)
Definition truthy (o : option string) : bool :=
  match o with
  | Some s => PyStr.nonempty s
  | None => false
  end.

(** [o in seen]. *)
Definition in_seen (o : option string) (seen : gset string) : bool :=
  match o with
  | Some i => bool_decide (i ∈ seen)
  | None => false
  end.

(** [seen.add(o)] for a string [o]. *)
Definition seen_add (o : option string) (seen : gset string) : gset string :=
  match o with
  | Some i => {[ i ]} ∪ seen
  | None => seen
  end.

(** The body of the inner loop of lines 258-265 on the state
    [(all_papers, seen_arxiv_ids)]. *)
Definition merge_step (st : list paper * gset string) (p : paper) : list paper * gset string :=
  let '(all_papers, seen_arxiv_ids) := st in
  if truthy (arxiv_id p) && in_seen (arxiv_id p) seen_arxiv_ids then st
  else
    let seen_arxiv_ids :=
      if truthy (arxiv_id p) then seen_add (arxiv_id p) seen_arxiv_ids else seen_arxiv_ids in
    (all_papers ++ [p], seen_arxiv_ids).

(** Lines 255-265. *)
Definition merge_loop (all_author_papers : list author_data) : list paper * gset string :=
  foldl (fun st author_data => foldl merge_step st (papers author_data))
        ([], ∅) all_author_papers.

Definition merge_papers (all_author_papers : list author_data) : list paper :=
  fst (merge_loop all_author_papers).

(** [a < b] on two sort keys: defined between strings only. *)
Definition key_lt (a b : option string) : res bool :=
  match a, b with
  | Some x, Some y => Ok (String.ltb x y)
  | _, _ => Raise TypeError
  end.

(** [list.sort(key=lambda p: p['updated'], reverse=True)]: a stable sort into
    descending key order that compares keys with [<].  It is modelled as an
    insertion sort; like Python's, it compares every key of a list of two or
    more items at least once and none of a shorter list. *)
Fixpoint insert_desc (p : paper) (l : list paper) : res (list paper) :=
  match l with
  | [] => Ok [p]
  | q :: l' =>
      b <- key_lt (updated p) (updated q) ;;
      if b then (r <- insert_desc p l' ;; Ok (q :: r)) else Ok (p :: l)
  end.

Fixpoint sort_by_updated (l : list paper) : res (list paper) :=
  match l with
  | [] => Ok []
  | p :: l' => s <- sort_by_updated l' ;; insert_desc p s
  end.

(** [', '.join(l)]. *)
Definition join_comma (l : list (option string)) : res string :=
  match PyStr.join ", " l with
  | Some s => Ok s
  | None => Raise TypeError
  end.

(** An optional string interpolated in an f-string. *)
Definition fstr (o : option string) : string :=
  match o with
  | Some s => s
  | None => "None"
  end.

Section Render.
Context {datetime : Type}.
Variable fromisoformat : string -> res datetime.
Variable strftime_bdY : datetime -> string.
(** [datetime.now().strftime('%b %d, %Y at %I:%M %p')]. *)
Variable now : string.

(** The body of the loop of lines 276-306: what is appended to [html]. *)
Definition render_paper (idx : nat) (paper : paper) : res string :=
  let abstract_id := "abstract-" +:+ PyStr.str_of_nat idx in
  categories <- match categories paper with
                | [] => Ok EmptyString
                | _ :: _ => join_comma (categories paper)
                end ;;
  joined_authors <- join_comma (authors paper) ;;
  let html :=
    tmpl_paper_0 +:+ escape (url paper) +:+ tmpl_paper_1 +:+ escape (title paper) +:+
    tmpl_paper_2 +:+ escape joined_authors +:+ tmpl_paper_3 +:+
    fstr (format_date fromisoformat strftime_bdY (published paper)) +:+ tmpl_paper_4 in
  let html :=
    match arxiv_id paper with
    | Some i =>
        if PyStr.nonempty i then html +:+ tmpl_badge_0 +:+ escape i +:+ tmpl_badge_1 else html
    | None => html
    end in
  let html :=
    if PyStr.nonempty categories
    then html +:+ tmpl_cats_0 +:+ escape categories +:+ tmpl_cats_1
    else html in
  Ok (html +:+ tmpl_summary_0 +:+ abstract_id +:+ tmpl_summary_1 +:+ escape (summary paper) +:+
      tmpl_summary_2 +:+ abstract_id +:+ tmpl_summary_3).

(** The loop over [enumerate(all_papers)], from index [idx] on. *)
Fixpoint render_papers (idx : nat) (all_papers : list paper) (html : string) : res string :=
  match all_papers with
  | [] => Ok html
  | paper :: rest =>
      block <- render_paper idx paper ;;
      render_papers (S idx) rest (html +:+ block)
  end.

(** Lines 308-330. *)
Definition render_footer (paper_count : nat) : string :=
  tmpl_footer_0 +:+ now +:+ tmpl_footer_1 +:+ PyStr.str_of_nat paper_count +:+ tmpl_footer_2 +:+
  (if negb (paper_count =? 1) then "s" else "") +:+ tmpl_footer_3.

(** The sorted list of lines 255-268. *)
Definition aggregate (all_author_papers : list author_data) : res (list paper) :=
  sort_by_updated (merge_papers all_author_papers).

Definition generate_html (all_author_papers : list author_data) : res string :=
  let html := html_head in
  all_papers <- aggregate all_author_papers ;;
  html <- match all_papers with
          | [] => Ok (html +:+ html_no_results)
          | _ :: _ => render_papers 0 all_papers html
          end ;;
  let paper_count := length all_papers in
  Ok (html +:+ render_footer paper_count).
End Render.

(** ** main *)

Section Main.
Context {datetime : Type}.
Variable fromisoformat : string -> res datetime.
Variable strftime_bdY : datetime -> string.
Variable now : string.
Variable urlopen : string -> res string.
Variable fromstring : string -> res ET.element.

(** The loop of lines 342-355 for one author. *)
Definition author_papers (a : author) : author_data :=
  match fetch_author_feed urlopen a with
  | Some xml_data =>
      if PyStr.nonempty xml_data
      then AuthorData a (parse_atom_feed fromstring xml_data)
      else AuthorData a []
  | None => AuthorData a []
  end.

(** The text that [main] writes to [OUTPUT_FILE]. *)
Definition main : res string :=
  generate_html fromisoformat strftime_bdY now (map author_papers AUTHORS).
End Main.

(** * Definitions used to state the properties *)

(** The four characters that open or close markup or an attribute value. *)
Definition is_markup (k : ascii) : bool :=
  Ascii.eqb k "<" || Ascii.eqb k ">" || Ascii.eqb k "034" || Ascii.eqb k "039".

(** The path template of the feed. *)
Definition feed_template (id : string) : string := "https://arxiv.org/a/" +:+ id +:+ ".atom2".

(** The identifier as the specification words it: an [http://orcid.org/] or
    [https://orcid.org/] prefix is stripped, and nothing else is touched.  It
    is compared with what [feed_url] computes. *)
Definition spec_strip_orcid_prefix (id : string) : string :=
  if String.prefix "https://orcid.org/" id then PyStr.drop 18 id
  else if String.prefix "http://orcid.org/" id then PyStr.drop 17 id
  else id.

Definition spec_feed_url (a : author) : string :=
  if String.eqb (author_type a) "orcid"
  then feed_template (spec_strip_orcid_prefix (author_id a))
  else feed_template (author_id a).

(** [paper] with another [arxiv_id]. *)
Definition with_arxiv_id (o : option string) (p : paper) : paper :=
  {| title := title p; summary := summary p; authors := authors p;
     published := published p; updated := updated p; url := url p;
     arxiv_id := o; categories := categories p |}.

(** Elements for examples: [<atom:tag>text</atom:tag>]. *)
Definition leaf (tag : string) (text : option string) : ET.element :=
  ET.Element (atom tag) [] text [].

Definition author_elem (name : option string) : ET.element :=
  ET.Element (atom "author") [] None [leaf "name" name].

Definition category_elem (term : string) : ET.element :=
  ET.Element (atom "category") [("term", term)] None [].

Definition entry_elem (children : list ET.element) : ET.element :=
  ET.Element (atom "entry") [] None children.

Definition feed_elem (entries : list ET.element) : ET.element :=
  ET.Element (atom "feed") [] None (leaf "title" (Some "Papers") :: entries).

(** A complete entry. *)
Definition entry_one : ET.element :=
  entry_elem [ leaf "id" (Some "http://arxiv.org/abs/2401.00001v1");
               leaf "updated" (Some "2024-01-05T10:00:00Z");
               leaf "published" (Some "2024-01-02T09:00:00Z");
               leaf "title" (Some "  On <script> tags  ");
               leaf "summary" (Some "We study A & B.");
               author_elem (Some "A. Author"); author_elem (Some "B. Author");
               category_elem "math.NT"; category_elem "math.AG";
               category_elem "cs.CR"; category_elem "cs.LO" ].

(** An entry whose title element has no text: [<title/>]. *)
Definition entry_empty_title : ET.element :=
  entry_elem [ leaf "id" (Some "http://arxiv.org/abs/2401.00002v1");
               leaf "title" None ].

(** An entry without a title element, one author of which has no name. *)
Definition entry_nameless_author : ET.element :=
  entry_elem [ leaf "id" (Some "http://arxiv.org/abs/2401.00003v1");
               ET.Element (atom "author") [] None [] ].

(** An entry without an id element. *)
Definition entry_no_id : ET.element :=
  entry_elem [ leaf "title" (Some "No id") ].

(** An entry whose updated element has no text: [<updated/>]. *)
Definition entry_empty_updated : ET.element :=
  entry_elem [ leaf "id" (Some "http://arxiv.org/abs/2401.00004v1");
               leaf "updated" None;
               leaf "title" (Some "No date") ].

(** An entry without an updated element. *)
Definition entry_no_updated : ET.element :=
  entry_elem [ leaf "id" (Some "http://arxiv.org/abs/2401.00005v1");
               leaf "title" (Some "No date") ].

(** An entry whose id ends with the marker, twice over. *)
Definition entry_abs_abs : ET.element :=
  entry_elem [ leaf "id" (Some "http://arxiv.org/abs/abs/");
               leaf "title" (Some "Marker twice") ].

(** The papers of all authors in the order the loops of lines 258-259 visit
    them. *)
Definition flat_papers (all_author_papers : list author_data) : list paper :=
  concat (map papers all_author_papers).

(** The inner loop of the merge as a function of the identifiers seen so
    far. *)
Fixpoint dedup (seen : gset string) (l : list paper) : list paper :=
  match l with
  | [] => []
  | p :: l' =>
      if truthy (arxiv_id p) && in_seen (arxiv_id p) seen then dedup seen l'
      else p :: dedup (if truthy (arxiv_id p) then seen_add (arxiv_id p) seen else seen) l'
  end.

(** The record carries the identifier [i]. *)
Definition has_id (i : string) (p : paper) : bool :=
  match arxiv_id p with
  | Some j => String.eqb i j
  | None => false
  end.

(** The record has no identifier, or the empty one. *)
Definition no_id (p : paper) : bool := negb (truthy (arxiv_id p)).

(** [p] does not sort after [q]: both keys are strings and the key of [p] is
    not smaller than the key of [q]. *)
Definition updated_ge (p q : paper) : Prop :=
  match updated p, updated q with
  | Some x, Some y => String.ltb x y = false
  | _, _ => False
  end.

(** The sort key of the record is [k]. *)
Definition same_key (k : option string) (p : paper) : bool :=
  bool_decide (updated p = k).

(** The sort key of the record is a string. *)
Definition has_key (p : paper) : Prop := is_Some (updated p).

(** Records for examples, as the parser builds them. *)
Definition sample_paper (t u : string) (i : option string) : paper :=
  {| title := t; summary := "An abstract."; authors := [Some "A. Author"];
     published := Some "2024-01-01T00:00:00Z"; updated := Some u;
     url := "http://arxiv.org/abs/" +:+ fstr i; arxiv_id := i; categories := [Some "math.NT"] |}.

(** The end-to-end scenario of the specification: two authors who share the
    paper P2. *)
Definition P1 : paper := sample_paper "P1" "2024-01-02" (Some "9901.1").
Definition P2 : paper := sample_paper "P2" "2024-01-05" (Some "9901.2").
Definition P2_copy : paper := sample_paper "P2 (as listed for B)" "2024-01-05" (Some "9901.2").
Definition P3 : paper := sample_paper "P3" "2024-01-01" (Some "9901.3").

Definition scenario : list author_data :=
  [ AuthorData (Author "Author A" "a_1" "arxiv") [P1; P2];
    AuthorData (Author "Author B" "b_1" "arxiv") [P2_copy; P3] ].

(** What an entry contributes to the list of papers when it does not raise. *)
Definition entry_papers (entry : ET.element) : list paper :=
  match process_entry entry with
  | Ok (Some p) => [p]
  | _ => []
  end.

(** The entries that [parse_atom_feed] iterates over. *)
Definition considered (root : ET.element) : list ET.element :=
  take MAX_PAPERS_PER_AUTHOR (ET.findall (atom "entry") root).

(** The entry has no title element or no id element. *)
Definition lacks_title_or_id (entry : ET.element) : Prop :=
  ET.find (atom "title") entry = None \/ ET.find (atom "id") entry = None.

(** A paper of [out] comes from the entry: it carries the text of its id
    element as URL. *)
Definition entry_kept (entry : ET.element) (out : list paper) : Prop :=
  exists p ie, p ∈ out /\ ET.find (atom "id") entry = Some ie /\ ET.text ie = Some (url p).

(** The exclusion rule as the specification states it, for the feed that
    [fromstring] returns for [xml_text]: among the considered entries exactly
    those without a title or an id element are left out. *)
Definition spec_exclusion_rule (fromstring : string -> res ET.element) (xml_text : string) : Prop :=
  forall root, fromstring xml_text = Ok root ->
  forall entry, entry ∈ considered root ->
    (~ entry_kept entry (parse_atom_feed fromstring xml_text) <-> lacks_title_or_id entry).

(** A feed of two entries, the second with an empty title element, and an XML
    parser that returns it. *)
Definition feed_with_empty_title : ET.element := feed_elem [entry_one; entry_empty_title].

Definition fromstring_const (root : ET.element) : string -> res ET.element :=
  fun _ => Ok root.

(** A reference reading of the two library functions of [format_date], used
    to run the formatter on examples: dates of the form
    [YYYY-MM-DD], optionally followed by [Thh:mm:ss] and then by an offset
    [+hh:mm] or [-hh:mm]; month names of the C locale. *)
Module RefDate.

Record datetime := DateTime {
  year : nat; month : nat; day : nat;
  hour : nat; minute : nat; second : nat
}.

Definition digit (c : ascii) : option nat :=
  let n := nat_of_ascii c in
  if (48 <=? n) && (n <=? 57) then Some (n - 48) else None.

(** Reads exactly [k] decimal digits. *)
Fixpoint number (k acc : nat) (s : string) : option (nat * string) :=
  match k, s with
  | O, _ => Some (acc, s)
  | S k', String c s' => d ← digit c; number k' (10 * acc + d) s'
  | S _, EmptyString => None
  end.

Definition expect (c : ascii) (s : string) : option string :=
  match s with
  | String d s' => if Ascii.eqb c d then Some s' else None
  | EmptyString => None
  end.

Definition is_leap (y : nat) : bool :=
  ((y mod 4 =? 0) && negb (y mod 100 =? 0)) || (y mod 400 =? 0).

Definition days_in_month (y m : nat) : nat :=
  match m with
  | 2 => if is_leap y then 29 else 28
  | 4 | 6 | 9 | 11 => 30
  | _ => 31
  end.

Definition parse_offset (s : string) : option unit :=
  match s with
  | EmptyString => Some tt
  | String c s' =>
      if Ascii.eqb c "+" || Ascii.eqb c "-" then
        '(h, s1) ← number 2 0 s'; s2 ← expect ":" s1; '(m, s3) ← number 2 0 s2;
        if (h <? 24) && (m <? 60) && negb (PyStr.nonempty s3) then Some tt else None
      else None
  end.

Definition parse_time (s : string) : option (nat * nat * nat) :=
  match s with
  | EmptyString => Some (0, 0, 0)
  | String c s' =>
      if Ascii.eqb c "T" || Ascii.eqb c " " then
        '(h, s1) ← number 2 0 s'; s2 ← expect ":" s1; '(m, s3) ← number 2 0 s2;
        s4 ← expect ":" s3; '(sec, s5) ← number 2 0 s4; _ ← parse_offset s5;
        if (h <? 24) && (m <? 60) && (sec <? 60) then Some (h, m, sec) else None
      else None
  end.

Definition parse (s : string) : option datetime :=
  '(y, s1) ← number 4 0 s; s2 ← expect "-" s1; '(m, s3) ← number 2 0 s2;
  s4 ← expect "-" s3; '(d, s5) ← number 2 0 s4; '(h, mi, sec) ← parse_time s5;
  if (1 <=? y) && (1 <=? m) && (m <=? 12) && (1 <=? d) && (d <=? days_in_month y m)
  then Some (DateTime y m d h mi sec) else None.

Definition fromisoformat (s : string) : res datetime :=
  match parse s with
  | Some dt => Ok dt
  | None => Raise ValueError
  end.

Definition month_abbr (m : nat) : string :=
  match m with
  | 1 => "Jan" | 2 => "Feb" | 3 => "Mar" | 4 => "Apr" | 5 => "May" | 6 => "Jun"
  | 7 => "Jul" | 8 => "Aug" | 9 => "Sep" | 10 => "Oct" | 11 => "Nov" | _ => "Dec"
  end.

(** [n] in decimal, with zeros in front up to [width] digits. *)
Definition zero_pad (width n : nat) : string :=
  let s := PyStr.str_of_nat n in
  String.string_of_list_ascii (replicate (width - String.length s) "0"%char) +:+ s.

(** ['%b %d, %Y']. *)
Definition strftime_bdY (dt : datetime) : string :=
  month_abbr (month dt) +:+ " " +:+ zero_pad 2 (day dt) +:+ ", " +:+ zero_pad 4 (year dt).

End RefDate.

(** The identifier badge of a paper block, or nothing. *)
Definition badge_html (p : paper) : string :=
  match arxiv_id p with
  | Some i => if PyStr.nonempty i then tmpl_badge_0 +:+ escape i +:+ tmpl_badge_1 else ""
  | None => ""
  end.

(** The category badge of a paper block, or nothing. *)
Definition cats_html (joined_categories : string) : string :=
  if PyStr.nonempty joined_categories
  then tmpl_cats_0 +:+ escape joined_categories +:+ tmpl_cats_1
  else "".

(** The fixed texts of the badges that a paper block holds. *)
Definition badge_texts (p : paper) (joined_categories : string) : string :=
  (if truthy (arxiv_id p) then tmpl_badge_0 +:+ tmpl_badge_1 else "") +:+
  (if PyStr.nonempty joined_categories then tmpl_cats_0 +:+ tmpl_cats_1 else "").

(** The fixed texts of a paper block, without what is interpolated. *)
Definition block_texts (p : paper) (joined_categories : string) : string :=
  tmpl_paper_0 +:+ tmpl_paper_1 +:+ tmpl_paper_2 +:+ tmpl_paper_3 +:+ tmpl_paper_4 +:+
  badge_texts p joined_categories +:+
  tmpl_summary_0 +:+ tmpl_summary_1 +:+ tmpl_summary_2 +:+ tmpl_summary_3.

(** The paper block with its interpolated texts: the date as it is, the six
    others through [escape]. *)
Definition paper_block (date abstract_id joined_authors joined_categories : string)
    (p : paper) : string :=
  tmpl_paper_0 +:+ escape (url p) +:+ tmpl_paper_1 +:+ escape (title p) +:+
  tmpl_paper_2 +:+ escape joined_authors +:+ tmpl_paper_3 +:+ date +:+ tmpl_paper_4 +:+
  badge_html p +:+ cats_html joined_categories +:+
  tmpl_summary_0 +:+ abstract_id +:+ tmpl_summary_1 +:+ escape (summary p) +:+
  tmpl_summary_2 +:+ abstract_id +:+ tmpl_summary_3.

(** [categories] of line 278. *)
Definition joined_categories_of (p : paper) : res string :=
  match categories p with
  | [] => Ok ""
  | _ :: _ => join_comma (categories p)
  end.

(** The letter after [paper] in the footer. *)
Definition plural_suffix (paper_count : nat) : string :=
  if negb (paper_count =? 1) then "s" else "".

(** Every [<] of [t] is followed, within [t], by two characters that are not
    [sc]: no [<script>] starts in [t], whatever text follows it. *)
Fixpoint tags_closed (t : string) : bool :=
  match t with
  | EmptyString => true
  | String c t' =>
      (if Ascii.eqb c "<" then
         match t' with
         | String c1 (String c2 _) => negb (Ascii.eqb c1 "s" && Ascii.eqb c2 "c")
         | _ => false
         end
       else true) && tags_closed t'
  end.

(** The date text of a paper block. *)
Definition date_text {datetime : Type} (fromisoformat : string -> res datetime)
    (strftime_bdY : datetime -> string) (p : paper) : string :=
  fstr (format_date fromisoformat strftime_bdY (published p)).

(** One author whose only paper is the one of [entry_one], the title of which
    holds a script tag. *)
Definition script_input : list author_data :=
  [AuthorData (Author "Alex Bartel" "bartel_a_1" "arxiv") (entry_papers entry_one)].

(** A run of [main] for examples: the feed of the first author holds the two
    entries of [feed_ok], the request for the second author fails, and the
    text returned for the third is not XML. *)
Definition feed_ok : ET.element := feed_elem [entry_no_updated; entry_one].

Definition urlopen_example (u : string) : res string :=
  if String.eqb u "https://arxiv.org/a/bartel_a_1.atom2" then Ok "<feed>two entries</feed>"
  else if String.eqb u "https://arxiv.org/a/paterson_r_1.atom2" then Raise ValueError
  else Ok "<html>not a feed".

Definition fromstring_example (xml_text : string) : res ET.element :=
  if String.eqb xml_text "<feed>two entries</feed>" then Ok feed_ok else Raise ParseError.

(** * Further definitions *)

From Stdlib Require Import DecimalNat.

(** The identifier under which the merge remembers a record, if any. *)
Definition key_id (p : paper) : option string :=
  if truthy (arxiv_id p) then arxiv_id p else None.

(** The non-empty identifiers of a list of records, in order. *)
Definition ids (l : list paper) : list string := omap key_id l.

(** Every author name and every category term of the record is a string. *)
Definition joinable (p : paper) : Prop :=
  Forall is_Some (authors p) /\ Forall is_Some (categories p).

(** [abstract_id] of line 277. *)
Definition abstract_id_of (idx : nat) : string := "abstract-" +:+ PyStr.str_of_nat idx.

(** The page for an empty list of papers. *)
Definition no_results_page (now : string) : string :=
  html_head +:+ html_no_results +:+ render_footer now 0.

(** A network on which every request fails. *)
Definition urlopen_down : string -> res string := fun _ => Raise ValueError.

(** A record whose published text is not a date. *)
Definition paper_raw_date : paper :=
  {| title := "T"; summary := "S"; authors := [Some "A. Author"];
     published := Some "<b>soon</b>"; updated := Some "2024-01-01";
     url := "http://arxiv.org/abs/1"; arxiv_id := Some "1"; categories := [] |}.

(** A record one author name of which is [None]. *)
Definition paper_nameless : paper :=
  {| title := "T"; summary := "S"; authors := [Some "A. Author"; None];
     published := Some "2024-01-01"; updated := Some "2024-01-01";
     url := "http://arxiv.org/abs/2"; arxiv_id := Some "2"; categories := [] |}.

(** The request for the feed of the author fails, or its body is empty or
    no XML. *)
Definition no_feed (urlopen : string -> res string) (fromstring : string -> res ET.element)
    (a : author) : Prop :=
  match urlopen (feed_url a) with
  | Raise _ => True
  | Ok body => body = "" \/ is_ok (fromstring body) = false
  end.

(** An entry without an id element whose title element is empty. *)
Definition entry_empty_title_no_id : ET.element :=
  entry_elem [ leaf "title" None; leaf "summary" None; author_elem (Some "A. Author") ].

(** An entry whose id element is empty and which has no title element. *)
Definition entry_empty_id : ET.element :=
  entry_elem [ leaf "id" None; author_elem (Some "A. Author") ].

(** An entry whose summary element is empty. *)
Definition entry_empty_summary : ET.element :=
  entry_elem [ leaf "id" (Some "http://arxiv.org/abs/2401.00006v1");
               leaf "title" (Some "No abstract"); leaf "summary" None ].

(** A record whose published value is [None], as the parser stores it for
    an empty published element. *)
Definition paper_no_date : paper :=
  {| title := "T"; summary := "S"; authors := [Some "A. Author"];
     published := None; updated := Some "2024-01-01";
     url := "http://arxiv.org/abs/3"; arxiv_id := Some "3"; categories := [] |}.

(** No occurrence of the marker [/abs/] starts in [p] when [p] is followed
    by the marker: the scan of [split] passes over [p] without a match. *)
Definition scan_free (p : string) : Prop :=
  PyStr.contains "/abs/" (p +:+ "/abs") = false.

(** The pieces [ps], each followed by the marker, and then [i]. *)
Fixpoint glue (ps : list string) (i : string) : string :=
  match ps with
  | [] => i
  | p :: ps' => p +:+ "/abs/" +:+ glue ps' i
  end.

(** The text after the first occurrence of [sub] in [s]: the identifier as
    the specification words it, when "that marker" is read as the first
    one.  It is compared with what [arxiv_id_of_url] computes. *)
Fixpoint spec_after_first (sub s : string) : option string :=
  if String.prefix sub s then Some (PyStr.drop (String.length sub) s)
  else match s with
       | EmptyString => None
       | String _ s' => spec_after_first sub s'
       end.

(** The text after the last occurrence of [sub] in [s]: the identifier as
    the specification words it, when "that marker" is read as the last one. *)
Fixpoint spec_after_last (sub s : string) : option string :=
  match s with
  | EmptyString => if String.prefix sub s then Some EmptyString else None
  | String _ s' =>
      match spec_after_last sub s' with
      | Some r => Some r
      | None =>
          if String.prefix sub s then Some (PyStr.drop (String.length sub) s) else None
      end
  end.

(** An entry whose id holds the marker twice, apart. *)
Definition entry_two_markers : ET.element :=
  entry_elem [ leaf "id" (Some "http://arxiv.org/abs/x/abs/y");
               leaf "title" (Some "Two markers") ].

(** An entry whose id holds the marker twice and ends with it. *)
Definition entry_marker_at_end : ET.element :=
  entry_elem [ leaf "id" (Some "http://arxiv.org/abs/1234/abs/");
               leaf "title" (Some "Marker at the end") ].

(** * Properties *)

#[local] Set Warnings "-clear-no-such-hyp".

(** ** Strings *)

Example ex_escape : escape ("<a href='x'>T&C</a>" +:+ dquote)
  = "&lt;a href=&#x27;x&#x27;&gt;T&amp;C&lt;/a&gt;&quot;".
Proof. reflexivity. Qed.
Example ex_split : PyStr.split "/abs/" "http://arxiv.org/abs/2401.00001v1" = Some ["http://arxiv.org"; "2401.00001v1"].
Proof. reflexivity. Qed.
Example ex_split2 : PyStr.split "/abs/" "http://arxiv.org/abs/abs/" = Some ["http://arxiv.org"; "abs/"].
Proof. reflexivity. Qed.
Example ex_strip : PyStr.strip "  a b
 " = "a b".
Proof. reflexivity. Qed.
Example ex_join : PyStr.join ", " [Some "a"; Some "b"; Some "c"] = Some "a, b, c".
Proof. reflexivity. Qed.
Example ex_str : PyStr.str_of_nat 120 = "120" /\ PyStr.str_of_nat 0 = "0".
Proof. split; reflexivity. Qed.

#[local] Arguments String.append !_ _ / : simpl nomatch.

Section StringFacts.
Implicit Types (s t sub old new sep cur : string) (c d : ascii).

Lemma app_empty_r s : s +:+ "" = s.
Proof. induction s as [|c s IH]; simpl; [done | by rewrite IH]. Qed.

Lemma app_assoc_s s t u : (s +:+ t) +:+ u = s +:+ t +:+ u.
Proof. induction s as [|c s IH]; simpl; [done | by rewrite IH]. Qed.

Lemma app_length_s s t : String.length (s +:+ t) = String.length s + String.length t.
Proof. induction s as [|c s IH]; simpl; [done | by rewrite IH]. Qed.

Lemma prefix_app sub t : String.prefix sub (sub +:+ t) = true.
Proof.
  induction sub as [|c sub IH]; simpl; [by destruct t |].
  destruct (ascii_dec c c); [done | congruence].
Qed.

Lemma prefix_inv sub s : String.prefix sub s = true -> exists t, s = sub +:+ t.
Proof.
  revert s. induction sub as [|c sub IH]; intros s H; [by exists s |].
  destruct s as [|d s]; simpl in H; [done |].
  destruct (ascii_dec c d) as [->|]; [| done].
  destruct (IH _ H) as [t ->]. by exists t.
Qed.

Lemma prefix_drop sub s :
  String.prefix sub s = true -> s = sub +:+ PyStr.drop (String.length sub) s.
Proof.
  revert s. induction sub as [|c sub IH]; intros s H; [done |].
  destruct s as [|d s]; simpl in H; [done |].
  destruct (ascii_dec c d) as [->|]; [| done].
  simpl. f_equal. by apply IH.
Qed.

(** A prefix test looks at no more characters than the pattern has. *)
Lemma prefix_app_long sub s t :
  String.length sub <= String.length s ->
  String.prefix sub (s +:+ t) = String.prefix sub s.
Proof.
  revert s. induction sub as [|c sub IH]; intros s H.
  - by destruct s, t.
  - destruct s as [|d s]; simpl in *; [lia |].
    destruct (ascii_dec c d); [| done]. apply IH. lia.
Qed.

Lemma drop_app_length s t : PyStr.drop (String.length s) (s +:+ t) = t.
Proof. induction s as [|c s IH]; simpl; [by destruct t | done]. Qed.

Lemma contains_prefix sub s : String.prefix sub s = true -> PyStr.contains sub s = true.
Proof. intros H. destruct s; cbn [PyStr.contains]; by rewrite H. Qed.

Lemma contains_app_intro pre sub post : PyStr.contains sub (pre +:+ sub +:+ post) = true.
Proof.
  induction pre as [|c pre IH]; simpl.
  - apply contains_prefix, prefix_app.
  - rewrite IH. apply orb_true_r.
Qed.

Lemma contains_inv sub s :
  PyStr.contains sub s = true -> exists pre post, s = pre +:+ sub +:+ post.
Proof.
  induction s as [|c s IH]; cbn [PyStr.contains]; intros H.
  - rewrite orb_false_r in H. apply prefix_inv in H as [t ->]. by exists "", t.
  - apply orb_true_iff in H as [H|H].
    + apply prefix_inv in H as [t ->]. by exists "", t.
    + destruct (IH H) as (pre & post & ->). by exists (String c pre), post.
Qed.

Lemma contains_cons_false sub c s :
  PyStr.contains sub (String c s) = false ->
  String.prefix sub (String c s) = false /\ PyStr.contains sub s = false.
Proof. cbn [PyStr.contains]. intros H. by apply orb_false_iff in H. Qed.

Lemma contains_false_prefix sub s : PyStr.contains sub s = false -> String.prefix sub s = false.
Proof. destruct s; cbn [PyStr.contains]; intros H; by apply orb_false_iff in H as [? ?]. Qed.

(** The scans pass over the rest of a matched occurrence. *)
Lemma replace_go_skip old new k s :
  PyStr.replace_go old new k s = PyStr.replace_go old new 0 (PyStr.drop k s).
Proof.
  revert k. induction s as [|c s IH]; intros [|k]; try done. simpl. apply IH.
Qed.

Lemma split_go_skip sep k cur s :
  PyStr.split_go sep k cur s = PyStr.split_go sep 0 cur (PyStr.drop k s).
Proof.
  revert k. induction s as [|c s IH]; intros [|k]; try done. simpl. apply IH.
Qed.

(** One step of each scan, on a match and on a mismatch. *)
Lemma replace_go_match old new t :
  old <> "" ->
  PyStr.replace_go old new 0 (old +:+ t) = new +:+ PyStr.replace_go old new 0 t.
Proof.
  intros Hne. destruct old as [|c old]; [done |].
  change (String c old +:+ t) with (String c (old +:+ t)). cbn [PyStr.replace_go].
  change (String c (old +:+ t)) with (String c old +:+ t). rewrite prefix_app.
  rewrite replace_go_skip.
  replace (String.length (String c old) - 1) with (String.length old)
    by (cbn [String.length]; lia).
  by rewrite drop_app_length.
Qed.

Lemma replace_go_none old new s :
  PyStr.contains old s = false -> PyStr.replace_go old new 0 s = s.
Proof.
  induction s as [|c s IH]; [done |]. intros H.
  apply contains_cons_false in H as [Hp Hc]. cbn [PyStr.replace_go].
  rewrite Hp. f_equal. by apply IH.
Qed.

Lemma split_go_match sep cur t :
  sep <> "" ->
  PyStr.split_go sep 0 cur (sep +:+ t) = cur :: PyStr.split_go sep 0 "" t.
Proof.
  intros Hne. destruct sep as [|c sep]; [done |].
  change (String c sep +:+ t) with (String c (sep +:+ t)). cbn [PyStr.split_go].
  change (String c (sep +:+ t)) with (String c sep +:+ t). rewrite prefix_app.
  rewrite split_go_skip.
  replace (String.length (String c sep) - 1) with (String.length sep)
    by (cbn [String.length]; lia).
  by rewrite drop_app_length.
Qed.

Lemma split_go_none sep cur s :
  PyStr.contains sep s = false -> PyStr.split_go sep 0 cur s = [cur +:+ s].
Proof.
  revert cur. induction s as [|c s IH]; intros cur H.
  - by rewrite app_empty_r.
  - apply contains_cons_false in H as [Hp Hc]. cbn [PyStr.split_go].
    rewrite Hp, IH by done. by rewrite app_assoc_s.
Qed.
End StringFacts.

Section SplitFacts.
Implicit Types (s t w sep cur : string) (c : ascii).

Lemma contains_empty sep : sep <> "" -> PyStr.contains sep "" = false.
Proof. by destruct sep. Qed.

Lemma contains_step sep c s :
  String.prefix sep (String c s) = false ->
  PyStr.contains sep (String c s) = PyStr.contains sep s.
Proof. cbn [PyStr.contains]. by intros ->. Qed.

Lemma last_cons_some {A} (x y : A) (l : list A) : last l = Some y -> last (x :: l) = Some y.
Proof. destruct l; [done |]. by intros <-. Qed.

(** The last piece of a split is the text after the last occurrence that the
    scan finds, and the separator does not occur in it. *)
Lemma split_go_last sep n :
  sep <> "" ->
  forall s cur, String.length s <= n ->
    (PyStr.contains sep s = false /\ PyStr.split_go sep 0 cur s = [cur +:+ s]) \/
    (exists pre i, s = pre +:+ sep +:+ i /\ PyStr.contains sep i = false /\
                   last (PyStr.split_go sep 0 cur s) = Some i).
Proof.
  intros Hne. induction n as [|n IH]; intros s cur Hlen.
  - destruct s; [| simpl in Hlen; lia]. left. split; [by apply contains_empty |].
    by rewrite app_empty_r.
  - destruct s as [|c s]; [left; split; [by apply contains_empty | by rewrite app_empty_r] |].
    destruct (String.prefix sep (String c s)) eqn:Hp.
    + right. rewrite (prefix_drop _ _ Hp).
      set (t := PyStr.drop (String.length sep) (String c s)).
      assert (String.length t <= n) as Ht.
      { pose proof (prefix_drop _ _ Hp) as E.
        apply (f_equal String.length) in E. rewrite app_length_s in E. fold t in E.
        destruct sep; [done |]. simpl in *. lia. }
      rewrite split_go_match by done.
      destruct (IH t "" Ht) as [[Hc Hs] | (pre & i & -> & Hc & Hl)].
      * exists "", t. rewrite Hs. simpl. done.
      * exists (sep +:+ pre), i. split; [by rewrite app_assoc_s |]. split; [done |].
        by apply last_cons_some.
    + cbn [PyStr.split_go]. rewrite Hp. rewrite contains_step by done.
      destruct (IH s (cur +:+ String c "")) as [[Hc Hs] | (pre & i & -> & Hc & Hl)].
      * simpl in Hlen. lia.
      * left. split; [done |]. rewrite Hs. by rewrite app_assoc_s.
      * right. by exists (String c pre), i.
Qed.

(** When the only occurrence of the marker is at the very end, the split
    has the empty string as its last piece. *)
Lemma split_go_abs_end w cur :
  PyStr.contains "/abs/" (w +:+ "/abs") = false ->
  PyStr.split_go "/abs/" 0 cur (w +:+ "/abs/") = [cur +:+ w; ""].
Proof.
  revert cur. induction w as [|c w IH]; intros cur H.
  - by rewrite app_empty_r.
  - change (String c w +:+ "/abs") with (String c (w +:+ "/abs")) in H.
    apply contains_cons_false in H as [Hp Hc].
    change (String c w +:+ "/abs/") with (String c (w +:+ "/abs/")).
    cbn [PyStr.split_go].
    assert (String.prefix "/abs/" (String c (w +:+ "/abs/")) = false) as ->.
    { replace (String c (w +:+ "/abs/")) with (String c (w +:+ "/abs") +:+ "/").
      - rewrite prefix_app_long; [done |].
        change (String c (w +:+ "/abs")) with (String c w +:+ "/abs").
        rewrite app_length_s. simpl. lia.
      - simpl. f_equal. by rewrite app_assoc_s. }
    rewrite IH by done. by rewrite app_assoc_s.
Qed.
End SplitFacts.

(** ** html.escape character by character *)

Section EscapeFacts.
Implicit Types (s t a b new : string) (c k : ascii).

(** What [escape] puts in place of one character. *)
Lemma replace1_app k new a b :
  PyStr.replace (String k "") new (a +:+ b)
  = PyStr.replace (String k "") new a +:+ PyStr.replace (String k "") new b.
Proof.
  unfold PyStr.replace. induction a as [|c a IH]; [done |].
  change (String c a +:+ b) with (String c (a +:+ b)).
  cbn [PyStr.replace_go String.prefix String.length].
  destruct (ascii_dec k c).
  - replace (String.prefix "" (a +:+ b)) with true by (by destruct (a +:+ b)).
    replace (String.prefix "" a) with true by (by destruct a).
    simpl. rewrite IH. by rewrite app_assoc_s.
  - simpl. by rewrite IH.
Qed.

Lemma escape_app a b : escape (a +:+ b) = escape a +:+ escape b.
Proof. unfold escape, dquote, squote. cbv zeta. by rewrite !replace1_app. Qed.

Lemma escape_cons c s : escape (String c s) = escape (String c "") +:+ escape s.
Proof. by rewrite <- escape_app. Qed.

Lemma count_char_app k a b :
  PyStr.count_char k (a +:+ b) = PyStr.count_char k a + PyStr.count_char k b.
Proof. induction a as [|c a IH]; simpl; [done | rewrite IH; lia]. Qed.

Lemma escape_char_no_markup k c :
  is_markup k = true -> PyStr.count_char k (escape (String c "")) = 0.
Proof.
  intros Hk.
  assert (k = "<" \/ k = ">" \/ k = "034" \/ k = "039")%char as Hcases.
  { unfold is_markup in Hk. rewrite !orb_true_iff, !Ascii.eqb_eq in Hk. tauto. }
  destruct c as [[] [] [] [] [] [] [] []];
    destruct Hcases as [-> | [-> | [-> | ->]]]; vm_compute; reflexivity.
Qed.

Lemma escape_no_markup k s : is_markup k = true -> PyStr.count_char k (escape s) = 0.
Proof.
  intros Hk. induction s as [|c s IH]; [done |].
  rewrite escape_cons, count_char_app, IH, escape_char_no_markup; done.
Qed.

(** A text that occurs in [s] brings its first character with it. *)
Lemma contains_count k sub s :
  PyStr.contains (String k sub) s = true -> 0 < PyStr.count_char k s.
Proof.
  intros H. apply contains_inv in H as (pre & post & ->).
  rewrite !count_char_app. cbn [PyStr.count_char]. rewrite Ascii.eqb_refl. lia.
Qed.

Lemma escape_script_gone s : PyStr.contains "<script>" (escape s) = false.
Proof.
  destruct (PyStr.contains "<script>" (escape s)) eqn:E; [| done].
  apply contains_count in E. rewrite escape_no_markup in E; [lia | done].
Qed.

Lemma escape_script_kept s :
  PyStr.contains "<script>" s = true -> PyStr.contains "&lt;script&gt;" (escape s) = true.
Proof.
  intros H. apply contains_inv in H as (pre & post & ->).
  rewrite !escape_app. change (escape "<script>") with "&lt;script&gt;".
  apply contains_app_intro.
Qed.
End EscapeFacts.

(** ** The feed URL *)

Lemma replace_orcid_https r :
  PyStr.contains "https://orcid.org/" r = false ->
  PyStr.replace "https://orcid.org/" "" ("https://orcid.org/" +:+ r) = r.
Proof.
  intros H. unfold PyStr.replace. rewrite replace_go_match by done.
  by rewrite replace_go_none.
Qed.

Lemma replace_orcid_http r :
  PyStr.contains "http://orcid.org/" r = false ->
  PyStr.replace "http://orcid.org/" "" ("http://orcid.org/" +:+ r) = r.
Proof.
  intros H. unfold PyStr.replace. rewrite replace_go_match by done.
  by rewrite replace_go_none.
Qed.

Lemma contains_https_in_http r :
  PyStr.contains "https://orcid.org/" r = false ->
  PyStr.contains "https://orcid.org/" ("http://orcid.org/" +:+ r) = false.
Proof. intros H. cbn. exact H. Qed.

Lemma replace_keep old new s :
  old <> "" -> PyStr.contains old s = false -> PyStr.replace old new s = s.
Proof. intros Hne H. destruct old; [done |]. by apply replace_go_none. Qed.

(** C5, as amended: for the type ['orcid'] the identifier put into the
    template is the id after [replace] has removed every occurrence of
    [https://orcid.org/] and then of [http://orcid.org/], wherever it stands;
    when the id is such a prefix followed by a rest that contains neither
    text, or contains neither text at all, this is the id without its prefix,
    as the specification words it.  For every other type the raw id is used. *)
Theorem feed_url_orcid_replace (a : author) :
  (author_type a = "orcid" ->
     feed_url a = feed_template (PyStr.replace "http://orcid.org/" ""
                                   (PyStr.replace "https://orcid.org/" "" (author_id a))) /\
     forall r,
       PyStr.contains "https://orcid.org/" r = false ->
       PyStr.contains "http://orcid.org/" r = false ->
       author_id a = r \/ author_id a = "https://orcid.org/" +:+ r \/
         author_id a = "http://orcid.org/" +:+ r ->
       feed_url a = feed_template r /\ spec_feed_url a = feed_template r) /\
  (author_type a <> "orcid" ->
     feed_url a = feed_template (author_id a) /\ spec_feed_url a = feed_template (author_id a)).
Proof.
  split.
  - intros Ht. unfold feed_url, spec_feed_url. rewrite Ht. cbn [String.eqb Ascii.eqb Bool.eqb].
    split; [done |]. intros r H1 H2 Hid. unfold feed_template.
    assert (String.prefix "https://orcid.org/" r = false) as Hp1
      by by apply contains_false_prefix.
    assert (String.prefix "http://orcid.org/" r = false) as Hp2
      by by apply contains_false_prefix.
    destruct Hid as [-> | [-> | ->]].
    + rewrite (replace_keep "https://orcid.org/") by done.
      rewrite (replace_keep "http://orcid.org/") by done.
      unfold spec_strip_orcid_prefix. by rewrite Hp1, Hp2.
    + rewrite replace_orcid_https by done.
      rewrite (replace_keep "http://orcid.org/") by done.
      unfold spec_strip_orcid_prefix. by rewrite prefix_app.
    + rewrite (replace_keep "https://orcid.org/") by (done || by apply contains_https_in_http).
      rewrite replace_orcid_http by done.
      unfold spec_strip_orcid_prefix. rewrite prefix_app. done.
  - intros Ht. unfold feed_url, spec_feed_url.
    apply String.eqb_neq in Ht. by rewrite Ht.
Qed.

Lemma feed_url_orcid_replace_witness :
  feed_url (Author "Dan Loughran" "https://orcid.org/0000-0001-5892-1564" "orcid")
  = "https://arxiv.org/a/0000-0001-5892-1564.atom2".
Proof.
  pose proof (feed_url_orcid_replace
                (Author "Dan Loughran" "https://orcid.org/0000-0001-5892-1564" "orcid")) as [H _].
  destruct (H eq_refl) as [_ H'].
  destruct (H' "0000-0001-5892-1564" eq_refl eq_refl (or_intror (or_introl eq_refl))) as [E _].
  exact E.
Defined.

(** C5 as stated fails: an occurrence that is not a prefix is removed too. *)
Lemma feed_url_not_prefix_strip :
  let a := Author "X" "0000-https://orcid.org/0001" "orcid" in
  spec_feed_url a = "https://arxiv.org/a/0000-https://orcid.org/0001.atom2" /\
  feed_url a = "https://arxiv.org/a/0000-0001.atom2" /\
  feed_url a <> spec_feed_url a.
Proof. repeat split; [vm_compute; reflexivity .. | vm_compute; discriminate]. Qed.

(** ** The identifier taken from the URL *)

Lemma arxiv_id_of_url_spec u :
  (PyStr.contains "/abs/" u = true /\
   exists pre i, arxiv_id_of_url u = Ok (Some i) /\ u = pre +:+ "/abs/" +:+ i /\
                 PyStr.contains "/abs/" i = false) \/
  (PyStr.contains "/abs/" u = false /\ arxiv_id_of_url u = Ok None).
Proof.
  unfold arxiv_id_of_url. destruct (PyStr.contains "/abs/" u) eqn:Hc; [left | by right].
  split; [done |]. cbn [PyStr.split].
  destruct (split_go_last "/abs/" (String.length u) ltac:(done) u "" ltac:(lia))
    as [[Hc' _] | (pre & i & -> & Hi & Hl)]; [congruence |].
  exists pre, i. unfold last_item. rewrite Hl. done.
Qed.

Lemma bind_ok {A B} (r : res A) (k : A -> res B) y :
  bind r k = Ok y -> exists x, r = Ok x /\ k x = Ok y.
Proof. destruct r; simpl; [eauto | done]. Qed.

(** What a paper that [process_entry] yields is made of. *)
Lemma process_entry_some entry p :
  process_entry entry = Ok (Some p) ->
  exists t ie title_text u,
    ET.find (atom "title") entry = Some t /\ ET.text t = Some title_text /\
    ET.find (atom "id") entry = Some ie /\ ET.text ie = Some u /\
    entry_authors entry = Ok (authors p) /\
    arxiv_id_of_url u = Ok (arxiv_id p) /\
    title p = PyStr.strip title_text /\ url p = u /\
    published p = text_or_empty (ET.find (atom "published") entry) /\
    updated p = text_or_empty (ET.find (atom "updated") entry) /\
    categories p = take 3 (entry_categories entry).
Proof.
  unfold process_entry. intros H.
  apply bind_ok in H as (au & Hau & H). apply bind_ok in H as (ai & Hai & H).
  destruct (ET.find (atom "title") entry) as [t|]; [| done].
  destruct (ET.find (atom "id") entry) as [ie|]; [| done].
  apply bind_ok in H as (tt & Htt & H). apply bind_ok in H as (st & Hst & H).
  apply bind_ok in H as (u & Hu & H). injection H as <-.
  cbn [extract_arxiv_id] in Hai.
  destruct (ET.text t) as [tt'|] eqn:Et; [| done]. injection Htt as ->.
  destruct (ET.text ie) as [u'|] eqn:Eu; [| done]. injection Hu as ->.
  by exists t, ie, tt, u.
Qed.

(** *** The scan of the URL for the marker *)

Section Scan.
Implicit Types (p t w i cur : string) (ps : list string) (c : ascii).

Lemma scan_free_empty : scan_free "".
Proof. done. Qed.

Lemma scan_free_cons c p :
  scan_free (String c p) <->
  String.prefix "/abs/" (String c (p +:+ "/abs")) = false /\ scan_free p.
Proof.
  unfold scan_free. change (String c p +:+ "/abs") with (String c (p +:+ "/abs")).
  cbn [PyStr.contains]. by rewrite orb_false_iff.
Qed.

(** The marker has five characters, four of which stand before its end. *)
Lemma prefix_marker_long c p t :
  String.prefix "/abs/" (String c (p +:+ "/abs/" +:+ t))
  = String.prefix "/abs/" (String c (p +:+ "/abs")).
Proof.
  replace (String c (p +:+ "/abs/" +:+ t)) with (String c (p +:+ "/abs") +:+ ("/" +:+ t)).
  - apply prefix_app_long. change (String c (p +:+ "/abs")) with (String c p +:+ "/abs").
    rewrite app_length_s. simpl. lia.
  - simpl. f_equal. by rewrite app_assoc_s.
Qed.

(** The scan passes over a piece in which no occurrence starts and cuts at
    the marker behind it. *)
Lemma split_go_first p cur t :
  scan_free p ->
  PyStr.split_go "/abs/" 0 cur (p +:+ "/abs/" +:+ t)
  = (cur +:+ p) :: PyStr.split_go "/abs/" 0 "" t.
Proof.
  revert cur. induction p as [|c p IH]; intros cur H.
  - rewrite app_empty_r. by apply (split_go_match "/abs/" cur t).
  - apply scan_free_cons in H as [Hp H].
    change (String c p +:+ "/abs/" +:+ t) with (String c (p +:+ "/abs/" +:+ t)).
    cbn [PyStr.split_go]. rewrite prefix_marker_long, Hp, IH by done.
    by rewrite app_assoc_s.
Qed.

Lemma contains_glue p ps i : PyStr.contains "/abs/" (glue (p :: ps) i) = true.
Proof. cbn [glue]. apply contains_app_intro. Qed.

Lemma split_go_glue ps i cur :
  ps <> [] -> Forall scan_free ps -> PyStr.contains "/abs/" i = false ->
  last (PyStr.split_go "/abs/" 0 cur (glue ps i)) = Some i.
Proof.
  intros Hne Hps Hi. revert cur. induction Hps as [|p ps Hp Hps IH]; intros cur; [done |].
  cbn [glue]. rewrite split_go_first by done. destruct ps as [|q ps].
  - cbn [glue]. by rewrite split_go_none.
  - apply last_cons_some, IH. done.
Qed.

(** The identifier of a URL that is given by its pieces. *)
Lemma arxiv_id_of_glue ps i :
  ps <> [] -> Forall scan_free ps -> PyStr.contains "/abs/" i = false ->
  arxiv_id_of_url (glue ps i) = Ok (Some i).
Proof.
  intros Hne Hps Hi. unfold arxiv_id_of_url. destruct ps as [|p ps]; [done |].
  rewrite contains_glue. cbn [PyStr.split]. unfold last_item.
  by rewrite split_go_glue.
Qed.

(** Every text in which the marker occurs is cut into such pieces. *)
Lemma glue_exists n : forall t,
  String.length t <= n -> PyStr.contains "/abs/" t = true ->
  exists p ps i, t = glue (p :: ps) i /\ Forall scan_free (p :: ps) /\
                 PyStr.contains "/abs/" i = false.
Proof.
  induction n as [|n IH]; intros t Hlen Hc.
  - destruct t; [done | simpl in Hlen; lia].
  - destruct t as [|c t]; [done |].
    destruct (String.prefix "/abs/" (String c t)) eqn:Hp.
    + rewrite (prefix_drop _ _ Hp) in *.
      set (r := PyStr.drop (String.length "/abs/") (String c t)) in *.
      assert (String.length r <= n) as Hr.
      { pose proof (prefix_drop _ _ Hp) as E. apply (f_equal String.length) in E.
        rewrite app_length_s in E. fold r in E. simpl in *. lia. }
      destruct (PyStr.contains "/abs/" r) eqn:Hcr.
      * destruct (IH r Hr Hcr) as (q & qs & i & -> & Hqs & Hi).
        exists "", (q :: qs), i. split; [done |]. split; [| done].
        constructor; [apply scan_free_empty | done].
      * exists "", [], r. split; [done |]. split; [| done].
        constructor; [apply scan_free_empty | constructor].
    + rewrite contains_step in Hc by done.
      destruct (IH t ltac:(simpl in Hlen; lia) Hc) as (q & qs & i & -> & Hqs & Hi).
      exists (String c q), qs, i. split; [done |]. split; [| done].
      apply Forall_cons in Hqs as [Hq Hqs]. constructor; [| done].
      apply scan_free_cons. split; [| done].
      cbn [glue] in Hp. by rewrite prefix_marker_long in Hp.
Qed.

Lemma contains_drop_marker rest :
  PyStr.contains "/abs/" ("abs/" +:+ rest) = false -> PyStr.contains "/abs/" rest = false.
Proof.
  intros H. change ("abs/" +:+ rest) with (String "a" (String "b" (String "s" (String "/" rest)))) in H.
  do 4 apply contains_cons_false in H as [_ H]. done.
Qed.

(** What the identifier is: the text behind the last piece. *)
Lemma arxiv_id_of_url_pieces u :
  (PyStr.contains "/abs/" u = false /\ arxiv_id_of_url u = Ok None) \/
  (exists p ps i, u = glue (p :: ps) i /\ Forall scan_free (p :: ps) /\
                  PyStr.contains "/abs/" i = false /\ arxiv_id_of_url u = Ok (Some i)).
Proof.
  destruct (PyStr.contains "/abs/" u) eqn:Hc.
  - right. destruct (glue_exists (String.length u) u ltac:(lia) Hc) as (p & ps & i & -> & Hps & Hi).
    exists p, ps, i. repeat split; try done. by apply arxiv_id_of_glue.
  - left. split; [done |]. unfold arxiv_id_of_url. by rewrite Hc.
Qed.

(** A text that ends with the marker, but not with the marker twice over,
    has the empty text behind its last piece. *)
Lemma glue_end_aux t i w :
  t +:+ "/abs/" +:+ i = w +:+ "/abs/" -> i <> "" -> PyStr.contains "/abs/" i = false ->
  exists v, w = v +:+ "/abs".
Proof.
  revert w. induction t as [|c t IH]; intros w E Hi Hc.
  - cbn [String.append] in E.
    destruct w as [|c1 w]; [cbn in E; injection E as E; by subst i |].
    cbn in E. injection E as <- E.
    destruct w as [|c2 w]; [cbn in E; done |]. cbn in E. injection E as <- E.
    destruct w as [|c3 w]; [cbn in E; done |]. cbn in E. injection E as <- E.
    destruct w as [|c4 w]; [cbn in E; done |]. cbn in E. injection E as <- E.
    destruct w as [|c5 w]; [by exists "" |]. cbn in E. injection E as <- E.
    subst i. rewrite <- (app_empty_r "/abs/") in Hc at 2.
    by rewrite contains_app_intro in Hc.
  - destruct w as [|c1 w].
    + apply (f_equal String.length) in E. cbn [String.append] in E.
      change (String c t +:+ "/abs/" +:+ i) with (String c (t +:+ "/abs/" +:+ i)) in E.
      cbn [String.length] in E. rewrite !app_length_s in E. simpl in E. lia.
    + change (String c t +:+ "/abs/" +:+ i) with (String c (t +:+ "/abs/" +:+ i)) in E.
      change (String c1 w +:+ "/abs/") with (String c1 (w +:+ "/abs/")) in E.
      injection E as <- E. destruct (IH _ E Hi Hc) as [v ->]. by exists (String c v).
Qed.

Lemma glue_unfold_last ps i : ps <> [] -> exists t, glue ps i = t +:+ "/abs/" +:+ i.
Proof.
  intros Hne. induction ps as [|p ps IH]; [done |]. cbn [glue].
  destruct ps as [|q ps]; [by exists p |].
  destruct (IH ltac:(done)) as [t ->]. exists (p +:+ "/abs/" +:+ t).
  by rewrite !app_assoc_s.
Qed.

Lemma arxiv_id_marker_at_end w :
  (forall v, w <> v +:+ "/abs") -> arxiv_id_of_url (w +:+ "/abs/") = Ok (Some "").
Proof.
  intros Hw. destruct (arxiv_id_of_url_pieces (w +:+ "/abs/"))
    as [[Hc _] | (p & ps & i & E & Hps & Hi & ->)].
  - rewrite <- (app_empty_r "/abs/") in Hc. by rewrite contains_app_intro in Hc.
  - destruct (String.string_dec i "") as [-> | Hne]; [done |].
    destruct (glue_unfold_last (p :: ps) i ltac:(done)) as [t Ht]. rewrite Ht in E.
    symmetry in E. destruct (glue_end_aux _ _ _ E Hne Hi) as [v ->]. by destruct (Hw v).
Qed.
End Scan.

(** C6, as amended: for an entry that yields a paper, the URL is the text of
    the id element; when it does not contain the marker [/abs/], the
    identifier is absent; when it does, the URL is made of one or more
    pieces, each passed over by the scan of [split] and followed by the
    marker, and a rest without the marker, and the identifier is that rest:
    the text after the last occurrence that a scan from the left for
    occurrences that do not overlap finds.  Where the marker occurs once,
    this is everything after it. *)
Theorem arxiv_id_last_split_piece (entry : ET.element) (p : paper) :
  process_entry entry = Ok (Some p) ->
  (exists ie, ET.find (atom "id") entry = Some ie /\ ET.text ie = Some (url p)) /\
  (PyStr.contains "/abs/" (url p) = false -> arxiv_id p = None) /\
  (PyStr.contains "/abs/" (url p) = true ->
     exists q qs i, url p = glue (q :: qs) i /\ Forall scan_free (q :: qs) /\
                    PyStr.contains "/abs/" i = false /\ arxiv_id p = Some i) /\
  (forall qs i, qs <> [] -> Forall scan_free qs -> PyStr.contains "/abs/" i = false ->
                url p = glue qs i -> arxiv_id p = Some i) /\
  (forall pre rest, url p = pre +:+ "/abs/" +:+ rest ->
                    PyStr.contains "/abs/" (pre +:+ "/abs") = false ->
                    PyStr.contains "/abs/" rest = false ->
                    arxiv_id p = Some rest).
Proof.
  intros H. apply process_entry_some in H
    as (t & ie & tt & u & _ & _ & Hie & Hu & _ & Hid & _ & -> & _).
  split; [by exists ie |].
  assert (forall qs i, qs <> [] -> Forall scan_free qs -> PyStr.contains "/abs/" i = false ->
                       u = glue qs i -> arxiv_id p = Some i) as Hdet.
  { intros qs i Hne Hqs Hi ->. rewrite arxiv_id_of_glue in Hid by done. by injection Hid. }
  split; [| split; [| split; [exact Hdet |]]].
  - intros Hc. unfold arxiv_id_of_url in Hid. rewrite Hc in Hid. by injection Hid.
  - intros Hc. destruct (arxiv_id_of_url_pieces u)
      as [[Hc' _] | (q & qs & i & E & Hqs & Hi & Hi')]; [congruence |].
    exists q, qs, i. rewrite Hid in Hi'. by injection Hi' as ->.
  - intros pre rest E Hpre Hrest. apply (Hdet [pre] rest); [done | | done | done].
    by constructor.
Qed.

Lemma arxiv_id_last_split_piece_witness :
  exists p, process_entry entry_one = Ok (Some p) /\
            url p = "http://arxiv.org/abs/2401.00001v1" /\ arxiv_id p = Some "2401.00001v1".
Proof.
  destruct (process_entry entry_one) as [[p|]|] eqn:E; [| vm_compute in E; discriminate ..].
  exists p. pose proof (arxiv_id_last_split_piece entry_one p E) as (_ & _ & _ & _ & H).
  vm_compute in E. injection E as <-. split; [done |]. split; [done |].
  by apply (H "http://arxiv.org" "2401.00001v1").
Defined.

(** C6 as stated fails under either reading of "that marker": where the
    marker occurs twice, apart, the identifier is not the text after the
    first occurrence, and where the URL ends with the marker twice over, it
    is not the text after the last one. *)
Lemma arxiv_id_not_after_that_marker :
  (exists p, process_entry entry_two_markers = Ok (Some p) /\
             url p = "http://arxiv.org/abs/x/abs/y" /\ arxiv_id p = Some "y" /\
             spec_after_first "/abs/" (url p) = Some "x/abs/y" /\
             arxiv_id p <> spec_after_first "/abs/" (url p)) /\
  (exists p, process_entry entry_abs_abs = Ok (Some p) /\
             url p = "http://arxiv.org/abs/abs/" /\ arxiv_id p = Some "abs/" /\
             spec_after_last "/abs/" (url p) = Some "" /\
             arxiv_id p <> spec_after_last "/abs/" (url p)).
Proof.
  split; eexists; (split; [vm_compute; reflexivity |]);
    repeat split; try (vm_compute; reflexivity); vm_compute; discriminate.
Qed.

(** ** The merge *)

Section Merge.
Implicit Types (p q : paper) (l : list paper) (seen : gset string).

Lemma foldl_merge_step l acc seen :
  exists seen', foldl merge_step (acc, seen) l = (acc ++ dedup seen l, seen').
Proof.
  revert acc seen. induction l as [|p l IH]; intros acc seen; cbn [foldl dedup].
  - exists seen. by rewrite app_nil_r.
  - unfold merge_step at 2.
    destruct (truthy (arxiv_id p) && in_seen (arxiv_id p) seen); [apply IH |].
    destruct (IH (acc ++ [p])
                (if truthy (arxiv_id p) then seen_add (arxiv_id p) seen else seen))
      as [seen' ->].
    exists seen'. by rewrite <- app_assoc.
Qed.

Lemma merge_loop_flat aps :
  merge_loop aps = foldl merge_step ([], ∅) (flat_papers aps).
Proof.
  unfold merge_loop, flat_papers. generalize (@nil paper, ∅ : gset string).
  induction aps as [|a aps IH]; intros st; [done |].
  cbn [map concat foldl]. by rewrite foldl_app, IH.
Qed.

Lemma merge_papers_dedup aps : merge_papers aps = dedup ∅ (flat_papers aps).
Proof.
  unfold merge_papers. rewrite merge_loop_flat.
  by destruct (foldl_merge_step (flat_papers aps) [] ∅) as [seen' ->].
Qed.

Lemma in_seen_add o seen i :
  truthy o = true -> in_seen (Some i) (seen_add o seen) = true <-> o = Some i \/ i ∈ seen.
Proof.
  destruct o as [j|]; [| done]. intros _. cbn [in_seen seen_add].
  rewrite bool_decide_eq_true. set_solver.
Qed.

Lemma dedup_sublist seen l : dedup seen l `sublist_of` l.
Proof.
  revert seen. induction l as [|p l IH]; intros seen; cbn [dedup]; [done |].
  destruct (truthy (arxiv_id p) && in_seen (arxiv_id p) seen).
  - by apply sublist_cons.
  - by apply sublist_skip.
Qed.

(** A record that is kept was not seen before. *)
Lemma dedup_fresh seen l q :
  q ∈ dedup seen l -> truthy (arxiv_id q) = true -> in_seen (arxiv_id q) seen = false.
Proof.
  revert seen. induction l as [|p l IH]; intros seen; cbn [dedup]; [by intros ?%elem_of_nil |].
  destruct (truthy (arxiv_id p) && in_seen (arxiv_id p) seen) eqn:E; [apply IH |].
  intros [-> | Hin]%elem_of_cons Hq.
  - rewrite Hq in E. by simpl in E.
  - specialize (IH _ Hin Hq). destruct (truthy (arxiv_id p)) eqn:Hp; [| done].
    destruct (arxiv_id q) as [i|] eqn:Hi; [| done].
    destruct (in_seen (Some i) seen) eqn:Hs; [| done].
    assert (in_seen (Some i) (seen_add (arxiv_id p) seen) = true) as Hs'
      by (apply in_seen_add; [done |]; right; by apply bool_decide_eq_true in Hs).
    congruence.
Qed.

Lemma dedup_no_repeat seen l l1 p l2 q l3 :
  dedup seen l = l1 ++ p :: l2 ++ q :: l3 ->
  truthy (arxiv_id p) = true -> arxiv_id p <> arxiv_id q.
Proof.
  revert seen l1. induction l as [|x l IH]; intros seen l1; cbn [dedup].
  - by destruct l1.
  - destruct (truthy (arxiv_id x) && in_seen (arxiv_id x) seen) eqn:E; [apply IH |].
    destruct l1 as [|y l1]; cbn [app]; intros [= <- H] Hp; [| by eapply IH].
    rewrite Hp in H. intros Heq.
    assert (q ∈ dedup (seen_add (arxiv_id x) seen) l) as Hq
      by (rewrite H; set_solver).
    apply dedup_fresh in Hq; [| congruence].
    destruct (arxiv_id q) as [i|] eqn:Hi; [| by rewrite Heq in Hp].
    assert (in_seen (Some i) (seen_add (arxiv_id x) seen) = true) as Hs
      by (apply in_seen_add; [done | by left]).
    congruence.
Qed.

Lemma has_id_truthy i p : i <> "" -> has_id i p = true -> arxiv_id p = Some i /\ truthy (arxiv_id p) = true.
Proof.
  unfold has_id. destruct (arxiv_id p) as [j|]; [| done].
  intros Hi Hj%String.eqb_eq. subst j. split; [done |]. by destruct i.
Qed.

Lemma dedup_find seen l i :
  i <> "" -> i ∉ seen ->
  List.find (has_id i) (dedup seen l) = List.find (has_id i) l.
Proof.
  intros Hi. revert seen. induction l as [|p l IH]; intros seen Hs; cbn [dedup]; [done |].
  cbn [List.find]. destruct (has_id i p) eqn:Hp.
  - apply has_id_truthy in Hp as [Hid Ht]; [| done]. rewrite Ht, Hid. cbn [in_seen andb].
    rewrite bool_decide_eq_false_2 by done. cbn [List.find]. unfold has_id at 1.
    by rewrite Hid, String.eqb_refl.
  - destruct (truthy (arxiv_id p) && in_seen (arxiv_id p) seen) eqn:E; [by apply IH |].
    cbn [List.find]. rewrite Hp. apply IH.
    destruct (truthy (arxiv_id p)) eqn:Ht; [| done].
    destruct (arxiv_id p) as [j|] eqn:Hj; [| done]. cbn [seen_add].
    unfold has_id in Hp. rewrite Hj in Hp. apply String.eqb_neq in Hp. set_solver.
Qed.

Lemma dedup_no_id seen l : List.filter no_id (dedup seen l) = List.filter no_id l.
Proof.
  revert seen. induction l as [|p l IH]; intros seen; cbn [dedup]; [done |].
  cbn [List.filter]. unfold no_id at 2.
  destruct (truthy (arxiv_id p)) eqn:Ht; cbn [andb negb].
  - destruct (in_seen (arxiv_id p) seen); [apply IH |].
    cbn [List.filter]. unfold no_id at 1. rewrite Ht. apply IH.
  - cbn [List.filter]. unfold no_id at 1. rewrite Ht. cbn [negb]. f_equal. apply IH.
Qed.
End Merge.

(** ** The order of strings *)

Lemma compare_OT (x y : string) : String.compare x y = String_as_OT.compare x y.
Proof.
  revert y. induction x as [|a x IH]; intros [|b y]; [done .. |].
  cbn [String.compare String_as_OT.compare]. rewrite IH.
  unfold Ascii.compare, Ascii_as_OT.compare, N_as_OT.compare.
  by destruct (N.compare (N_of_ascii a) (N_of_ascii b)).
Qed.

Lemma compare_lt_trans (x y z : string) :
  String.compare x y = Lt -> String.compare y z = Lt -> String.compare x z = Lt.
Proof.
  rewrite !compare_OT. intros H1 H2.
  exact (StrictOrder_Transitive (R:=String_as_OT.lt) x y z H1 H2).
Qed.

Lemma compare_refl (x : string) : String.compare x x = Eq.
Proof.
  pose proof (String.compare_antisym x x) as H. by destruct (String.compare x x).
Qed.

Lemma ltb_irrefl (x : string) : String.ltb x x = false.
Proof. unfold String.ltb. by rewrite compare_refl. Qed.

Lemma ltb_ge_trans (x y z : string) :
  String.ltb x y = false -> String.ltb y z = false -> String.ltb x z = false.
Proof.
  unfold String.ltb. intros Hxy Hyz.
  destruct (String.compare x z) eqn:Hxz; try done.
  destruct (String.compare x y) eqn:Exy; try done.
  - apply String.compare_eq_iff in Exy as ->. by rewrite Hxz in Hyz.
  - destruct (String.compare y z) eqn:Eyz; try done.
    + apply String.compare_eq_iff in Eyz as ->. congruence.
    + rewrite String.compare_antisym in Exy, Eyz.
      destruct (String.compare y x) eqn:Eyx; try done.
      destruct (String.compare z y) eqn:Ezy; try done.
      pose proof (compare_lt_trans _ _ _ Ezy Eyx) as Hzx.
      rewrite String.compare_antisym, Hzx in Hxz. done.
Qed.

Lemma ltb_empty_r (x : string) : String.ltb x "" = false.
Proof. by destruct x. Qed.

Lemma ltb_empty_l (x : string) : String.ltb "" x = false -> x = "".
Proof. by destruct x. Qed.

(** ** The sort *)

Section Sort.
Implicit Types (p q : paper) (l s r : list paper).

Lemma updated_ge_trans p q (z : paper) : updated_ge p q -> updated_ge q z -> updated_ge p z.
Proof.
  unfold updated_ge.
  destruct (updated p), (updated q), (updated z); try done. apply ltb_ge_trans.
Qed.

Lemma insert_desc_perm p l r : insert_desc p l = Ok r -> r ≡ₚ p :: l.
Proof.
  revert r. induction l as [|q l IH]; intros r; cbn [insert_desc].
  - by intros [= <-].
  - intros (b & Hb & H)%bind_ok. destruct b.
    + apply bind_ok in H as (r' & Hr' & [= <-]). rewrite (IH _ Hr'). apply Permutation_swap.
    + by injection H as <-.
Qed.

Lemma sort_by_updated_perm l r : sort_by_updated l = Ok r -> r ≡ₚ l.
Proof.
  revert r. induction l as [|p l IH]; intros r; cbn [sort_by_updated].
  - by intros [= <-].
  - intros (s & Hs & H)%bind_ok. rewrite (insert_desc_perm _ _ _ H). by rewrite (IH _ Hs).
Qed.

(** Inserting among records whose keys are strings succeeds, keeps a sorted
    list sorted, and leaves the records of each key in their order, the new
    one first. *)
Lemma insert_desc_spec p l :
  has_key p -> Forall has_key l ->
  exists r, insert_desc p l = Ok r /\
            (StronglySorted updated_ge l -> StronglySorted updated_ge r) /\
            (forall k, List.filter (same_key k) r = List.filter (same_key k) (p :: l)).
Proof.
  intros [x Hx]. induction l as [|q l IH]; intros Hl; cbn [insert_desc].
  - exists [p]. split; [done |]. split; [intros _; by repeat constructor | done].
  - apply Forall_cons in Hl as [[y Hy] Hl]. rewrite Hx, Hy. cbn [key_lt bind].
    destruct (String.ltb x y) eqn:Hlt.
    + destruct (IH Hl) as (r & Hr & Hsort & Hstab). rewrite Hr. cbn [bind].
      exists (q :: r). split; [done |]. split.
      * intros Hs. apply StronglySorted_inv in Hs as [Hs Hq].
        constructor; [by apply Hsort |].
        assert (r ≡ₚ p :: l) as -> by by apply insert_desc_perm.
        constructor; [| done]. unfold updated_ge. rewrite Hx, Hy.
        unfold String.ltb in *. rewrite String.compare_antisym.
        by destruct (String.compare x y).
      * intros k. cbn [List.filter]. rewrite Hstab. cbn [List.filter]. unfold same_key.
        rewrite Hx, Hy. repeat case_bool_decide; try done. simplify_eq.
        by rewrite ltb_irrefl in Hlt.
    + exists (p :: q :: l). split; [done |]. split; [| done].
      intros Hs. constructor; [done |].
      assert (updated_ge p q) as Hpq by (unfold updated_ge; by rewrite Hx, Hy).
      constructor; [done |].
      apply StronglySorted_inv in Hs as [_ Hq].
      eapply Forall_impl; [exact Hq |]. intros z Hz. by eapply updated_ge_trans.
Qed.

Lemma sort_by_updated_spec l :
  Forall has_key l ->
  exists r, sort_by_updated l = Ok r /\ r ≡ₚ l /\ StronglySorted updated_ge r /\
            (forall k, List.filter (same_key k) r = List.filter (same_key k) l).
Proof.
  induction l as [|p l IH]; intros Hl; cbn [sort_by_updated].
  - exists []. repeat split; constructor.
  - apply Forall_cons in Hl as [Hp Hl]. destruct (IH Hl) as (s & -> & Hperm & Hsort & Hstab).
    cbn [bind].
    destruct (insert_desc_spec p s Hp) as (r & Hr & Hsort' & Hstab').
    { by rewrite Hperm. }
    exists r. split; [done |]. split; [| split; [by apply Hsort' |]].
    + rewrite (insert_desc_perm _ _ _ Hr). by rewrite Hperm.
    + intros k. rewrite Hstab'. cbn [List.filter]. by rewrite Hstab.
Qed.

(** The sort raises exactly when the list has two or more records and the
    key of one of them is [None]. *)
Lemma sort_by_updated_ok l :
  is_ok (sort_by_updated l) = true <-> length l <= 1 \/ Forall has_key l.
Proof.
  split.
  - induction l as [|p l IH]; cbn [sort_by_updated]; [by right |].
    destruct (sort_by_updated l) as [s|] eqn:Hs; [| done]. cbn [bind]. intros Hins.
    pose proof (sort_by_updated_perm _ _ Hs) as Hperm.
    destruct s as [|q s].
    { apply Permutation_nil_l in Hperm as <-. left. simpl. lia. }
    cbn [insert_desc] in Hins.
    destruct (updated p) as [x|] eqn:Hx; [| done].
    destruct (updated q) as [y|] eqn:Hy; [| done].
    right. constructor; [by exists x |].
    destruct (IH eq_refl) as [Hlen | Hall]; [| done].
    destruct l as [|z [|z' l]]; [done | | simpl in Hlen; lia].
    apply Permutation_length in Hperm as Hl. destruct s; [| done].
    apply Permutation_singleton_r in Hperm as [= ->]. constructor; [by exists y | done].
  - intros [Hlen | Hall].
    + destruct l as [|p [|q l]]; [done | done | simpl in Hlen; lia].
    + by destruct (sort_by_updated_spec l Hall) as (r & -> & _).
Qed.

(** In a list sorted this way nothing follows an empty key but empty keys. *)
Lemma sorted_empty_last l1 p l2 q l3 :
  StronglySorted updated_ge (l1 ++ p :: l2 ++ q :: l3) ->
  updated p = Some "" -> updated q = Some "".
Proof.
  intros Hs Hp. apply StronglySorted_app_1_r in Hs.
  apply StronglySorted_inv in Hs as [_ Hall].
  rewrite Forall_app, Forall_cons in Hall. destruct Hall as (_ & Hq & _).
  unfold updated_ge in Hq. rewrite Hp in Hq.
  destruct (updated q) as [y|]; [| done]. by apply ltb_empty_l in Hq as ->.
Qed.
End Sort.

(** ** The aggregated list *)

(** C1: the merged list holds no two records with the same non-empty
    identifier; it is a subsequence of the papers in iteration order (authors
    in the given order, the papers of each in feed order); of the records that
    carry a non-empty identifier the first one in that order is the one kept;
    the records without an identifier, or with the empty one, are all kept;
    and the list that the sort returns holds the same records. *)
Theorem merge_first_occurrence_wins (all_author_papers : list author_data) :
  let flat := flat_papers all_author_papers in
  let merged := merge_papers all_author_papers in
  (forall l1 p l2 q l3,
     merged = l1 ++ p :: l2 ++ q :: l3 ->
     truthy (arxiv_id p) = true -> arxiv_id p <> arxiv_id q) /\
  merged `sublist_of` flat /\
  (forall i, i <> "" -> List.find (has_id i) merged = List.find (has_id i) flat) /\
  List.filter no_id merged = List.filter no_id flat /\
  (forall out, aggregate all_author_papers = Ok out -> out ≡ₚ merged).
Proof.
  cbn zeta. rewrite merge_papers_dedup. repeat split.
  - intros l1 p l2 q l3. apply dedup_no_repeat.
  - apply dedup_sublist.
  - intros i Hi. apply dedup_find; [done | set_solver].
  - apply dedup_no_id.
  - intros out H. unfold aggregate in H. rewrite merge_papers_dedup in H.
    by apply sort_by_updated_perm.
Qed.

Example scenario_merged : merge_papers scenario = [P1; P2; P3].
Proof. by vm_compute. Qed.

Example scenario_aggregated : aggregate scenario = Ok [P2; P1; P3].
Proof. by vm_compute. Qed.

(** When the [updated] value of every record is a string, the sort returns
    the merged records in descending order of that string, the records of
    equal key in the order in which the merge left them, and those with the
    empty key last. *)
Lemma aggregate_sorted_stable (all_author_papers : list author_data) :
  Forall has_key (flat_papers all_author_papers) ->
  exists out,
    aggregate all_author_papers = Ok out /\
    out ≡ₚ merge_papers all_author_papers /\
    StronglySorted updated_ge out /\
    (forall k, List.filter (same_key k) out
               = List.filter (same_key k) (merge_papers all_author_papers)) /\
    (forall l1 p l2 q l3, out = l1 ++ p :: l2 ++ q :: l3 ->
                          updated p = Some "" -> updated q = Some "").
Proof.
  intros Hall.
  assert (Forall has_key (merge_papers all_author_papers)) as Hm.
  { rewrite merge_papers_dedup. apply Forall_forall. intros p Hp.
    rewrite Forall_forall in Hall. apply Hall.
    eapply elem_of_sublist; [exact Hp | apply dedup_sublist]. }
  destruct (sort_by_updated_spec _ Hm) as (out & Hout & Hperm & Hsort & Hstab).
  exists out. repeat split; try done.
  intros l1 p l2 q l3 -> Hp. exact (sorted_empty_last _ _ _ _ _ Hsort Hp).
Qed.

(** The sort compares with [<] in the order of Python's strings: the empty
    string is below every other one. *)
Example sort_with_empty_key :
  sort_by_updated [sample_paper "a" "" None; sample_paper "b" "2024-01-02" None;
                   sample_paper "c" "" None; sample_paper "d" "2024-01-02" None;
                   sample_paper "e" "2024-03-01" None]
  = Ok [sample_paper "e" "2024-03-01" None; sample_paper "b" "2024-01-02" None;
        sample_paper "d" "2024-01-02" None; sample_paper "a" "" None;
        sample_paper "c" "" None].
Proof. by vm_compute. Qed.

(** C2 at an input on which the code does not deliver it: the parser stores
    [None] as the [updated] value of an entry whose updated element is empty,
    and the sort of two records of which one has that key raises [TypeError],
    so that [generate_html] returns no page.  For an entry without an updated
    element the parser stores the empty string, and the record sorts last. *)
Theorem sort_raises_on_empty_updated :
  exists p1 p2 p3,
    process_entry entry_one = Ok (Some p1) /\
    process_entry entry_empty_updated = Ok (Some p2) /\
    process_entry entry_no_updated = Ok (Some p3) /\
    updated p1 = Some "2024-01-05T10:00:00Z" /\ updated p2 = None /\ updated p3 = Some "" /\
    let a := Author "Alex Bartel" "bartel_a_1" "arxiv" in
    aggregate [AuthorData a [p3; p1]] = Ok [p1; p3] /\
    merge_papers [AuthorData a [p1; p2]] = [p1; p2] /\
    aggregate [AuthorData a [p1; p2]] = Raise TypeError /\
    forall datetime (fromisoformat : string -> res datetime) strftime_bdY now,
      generate_html fromisoformat strftime_bdY now [AuthorData a [p1; p2]] = Raise TypeError.
Proof.
  eexists _, _, _. split; [vm_compute; reflexivity |]. split; [vm_compute; reflexivity |].
  split; [vm_compute; reflexivity |].
  split; [done |]. split; [done |]. split; [done |]. cbn zeta.
  split; [by vm_compute |]. split; [by vm_compute |].
  match goal with
  | |- ?a = _ /\ _ => assert (a = Raise TypeError) as H by (by vm_compute)
  end.
  split; [exact H |]. intros dt fi sf now. unfold generate_html. by rewrite H.
Qed.

(** ** The parser *)

Section Parser.
Implicit Types (entry e : ET.element) (es : list ET.element) (papers : list paper).

Lemma parse_entries_ok es papers :
  Forall (fun e => is_ok (process_entry e) = true) es ->
  parse_entries es papers = Ok (papers ++ concat (map entry_papers es)).
Proof.
  revert papers. induction es as [|e es IH]; intros papers H; cbn [parse_entries map concat].
  - by rewrite app_nil_r.
  - apply Forall_cons in H as [He H]. unfold entry_papers at 1.
    destruct (process_entry e) as [[p|]|]; [| | done]; cbn [bind]; rewrite IH by done.
    + by rewrite <- app_assoc.
    + done.
Qed.

Lemma parse_entries_raise es papers :
  Exists (fun e => is_ok (process_entry e) = false) es ->
  is_ok (parse_entries es papers) = false.
Proof.
  revert papers. induction es as [|e es IH]; intros papers H; [by apply Exists_nil in H |].
  cbn [parse_entries]. destruct (process_entry e) as [r|] eqn:E; [| done]. cbn [bind].
  apply Exists_cons in H as [H | H]; [by rewrite E in H | by apply IH].
Qed.

Lemma entry_papers_length es : length (concat (map entry_papers es)) <= length es.
Proof.
  induction es as [|e es IH]; [done |]. cbn [map concat]. rewrite length_app.
  unfold entry_papers at 1. destruct (process_entry e) as [[p|]|]; simpl; lia.
Qed.

(** An entry that does not raise is skipped exactly when its title or its
    id element is missing. *)
Lemma entry_papers_nil e :
  is_ok (process_entry e) = true ->
  entry_papers e = [] <-> lacks_title_or_id e.
Proof.
  unfold entry_papers, lacks_title_or_id, process_entry.
  destruct (entry_authors e); [| done]. cbn [bind].
  destruct (extract_arxiv_id (ET.find (atom "id") e)); [| done]. cbn [bind].
  destruct (ET.find (atom "title") e) as [t|]; [| by intuition].
  destruct (ET.find (atom "id") e) as [ie|]; [| by intuition].
  destruct (attr_of (ET.text t)); [| done]. cbn [bind].
  destruct (match ET.find (atom "summary") e with
            | Some s => bind (attr_of (ET.text s)) (fun x => Ok (PyStr.strip x))
            | None => Ok ""
            end); [| done]. cbn [bind].
  destruct (attr_of (ET.text ie)); [| done]. cbn [bind]. intros _.
  split; [done | by intros [? | ?]].
Qed.

(** A title element without text makes the entry raise when the id element
    is there: [title.text.strip()] is evaluated for it. *)
Lemma empty_title_raises e t :
  ET.find (atom "title") e = Some t -> ET.text t = None ->
  is_Some (ET.find (atom "id") e) ->
  is_ok (process_entry e) = false.
Proof.
  intros Ht Htt [ie Hie]. unfold process_entry. rewrite Ht, Hie.
  destruct (entry_authors e); [| done]. cbn [bind].
  destruct (extract_arxiv_id (Some ie)); [| done]. cbn [bind].
  by rewrite Htt.
Qed.

(** An author element without a name child makes the comprehension raise,
    whatever else the entry holds. *)
Lemma nameless_author_raises e a :
  a ∈ ET.findall (atom "author") e -> ET.find (atom "name") a = None ->
  process_entry e = Raise AttributeError.
Proof.
  intros Ha Hn. unfold process_entry, entry_authors.
  assert (comprehension
            (fun a => bind (attr_of (ET.find (atom "name") a)) (fun n => Ok (ET.text n)))
            (ET.findall (atom "author") e) = Raise AttributeError) as ->; [| done].
  induction (ET.findall (atom "author") e) as [|b l IH]; [by apply elem_of_nil in Ha |].
  cbn [comprehension]. destruct (ET.find (atom "name") b) as [n|] eqn:Hb; [| done].
  cbn [attr_of bind]. apply elem_of_cons in Ha as [-> | Ha]; [congruence |].
  by rewrite IH.
Qed.

Lemma considered_length root : length (considered root) <= MAX_PAPERS_PER_AUTHOR.
Proof. unfold considered. rewrite length_take. lia. Qed.
End Parser.

(** C4, as amended: the parser looks at the first [MAX_PAPERS_PER_AUTHOR]
    entry elements only and returns at most that many papers.  When none of
    these entries raises, the output lists in feed order the papers of the
    entries that have both a title and an id element, and an entry is left out
    exactly when one of the two is missing.  When one of them raises, or the
    text is not XML, the output is empty. *)
Theorem parse_considers_capped_entries (fromstring : string -> res ET.element) (xml_text : string) :
  let out := parse_atom_feed fromstring xml_text in
  length out <= MAX_PAPERS_PER_AUTHOR /\
  match fromstring xml_text with
  | Raise _ => out = []
  | Ok root =>
      (Forall (fun e => is_ok (process_entry e) = true) (considered root) ->
         out = concat (map entry_papers (considered root)) /\
         forall e, e ∈ considered root -> entry_papers e = [] <-> lacks_title_or_id e) /\
      (Exists (fun e => is_ok (process_entry e) = false) (considered root) -> out = []) /\
      (forall fromstring' xml_text' root',
         fromstring' xml_text' = Ok root' -> considered root' = considered root ->
         parse_atom_feed fromstring' xml_text' = out)
  end.
Proof.
  cbn zeta. unfold parse_atom_feed, parse_body.
  destruct (fromstring xml_text) as [root|] eqn:Hroot; cbn [bind]; [| split; [simpl; lia | done]].
  fold (considered root).
  assert (Exists (fun e => is_ok (process_entry e) = false) (considered root) ->
          match parse_entries (considered root) [] with Ok ps => ps | Raise _ => [] end = [])
    as Hraise.
  { intros H%(parse_entries_raise _ []). by destruct (parse_entries (considered root) []). }
  assert (Forall (fun e => is_ok (process_entry e) = true) (considered root) ->
          match parse_entries (considered root) [] with Ok ps => ps | Raise _ => [] end
          = concat (map entry_papers (considered root))) as Hok.
  { intros H. by rewrite parse_entries_ok. }
  split; [| split; [| split]].
  - destruct (decide (Forall (fun e => is_ok (process_entry e) = true) (considered root)))
      as [H | H].
    + rewrite Hok by done. etrans; [apply entry_papers_length | apply considered_length].
    + rewrite Hraise; [simpl; lia |]. apply not_Forall_Exists in H; [| apply _].
      eapply Exists_impl; [exact H |]. intros e He. simpl in He. by destruct (is_ok _).
  - intros H. split; [by apply Hok |]. intros e He. apply entry_papers_nil.
    rewrite Forall_forall in H. by apply H.
  - exact Hraise.
  - intros fs' xml' root' Hr' Hc. rewrite Hr'. cbn [bind]. fold (considered root'). by rewrite Hc.
Qed.

Lemma parse_considers_capped_entries_witness :
  parse_atom_feed (fromstring_const (feed_elem [entry_no_id; entry_one])) "<feed>...</feed>"
  = entry_papers entry_one /\ length (entry_papers entry_one) = 1.
Proof.
  pose proof (parse_considers_capped_entries
                (fromstring_const (feed_elem [entry_no_id; entry_one])) "<feed>...</feed>")
    as [_ H].
  cbn [fromstring_const] in H. destruct H as [H _].
  destruct H as [H _].
  - repeat constructor.
  - split; [| by vm_compute]. rewrite H. by vm_compute.
Defined.

(** C4 as stated fails: the first entry has a title and an id element and is
    among the entries considered, and the output is empty all the same,
    because the second entry raises. *)
Lemma parse_drops_complete_entry :
  ~ spec_exclusion_rule (fromstring_const feed_with_empty_title) "<feed>...</feed>".
Proof.
  intros H. specialize (H feed_with_empty_title eq_refl entry_one).
  assert (entry_one ∈ considered feed_with_empty_title) as Hin by (vm_compute; constructor).
  apply H in Hin as [Hin _].
  assert (parse_atom_feed (fromstring_const feed_with_empty_title) "<feed>...</feed>" = [])
    as Hnil by (by vm_compute).
  destruct Hin as [Ht | Ht]; [| by vm_compute in Ht ..].
  rewrite Hnil. intros (p & ie & Hp & _). by apply elem_of_nil in Hp.
Qed.

(** C9: when an entry among those considered raises, the parser returns the
    empty list, whatever the entries before it yielded.  An entry raises when
    its title element has no text and its id element is present, and when one
    of its author elements has no name child, be the title there or not. *)
Theorem parse_exception_discards_all :
  (forall (fromstring : string -> res ET.element) xml_text root,
     fromstring xml_text = Ok root ->
     Exists (fun e => is_ok (process_entry e) = false) (considered root) ->
     parse_atom_feed fromstring xml_text = []) /\
  (forall e t,
     ET.find (atom "title") e = Some t -> ET.text t = None ->
     is_Some (ET.find (atom "id") e) ->
     is_ok (process_entry e) = false) /\
  (forall e a,
     a ∈ ET.findall (atom "author") e -> ET.find (atom "name") a = None ->
     process_entry e = Raise AttributeError).
Proof.
  split; [| split].
  - intros fs xml root Hroot H. unfold parse_atom_feed, parse_body. rewrite Hroot. cbn [bind].
    fold (considered root). apply (parse_entries_raise _ []) in H.
    by destruct (parse_entries (considered root) []).
  - apply empty_title_raises.
  - apply nameless_author_raises.
Qed.

Lemma parse_exception_discards_all_witness :
  parse_atom_feed (fromstring_const feed_with_empty_title) "<feed>...</feed>" = [] /\
  parse_atom_feed (fromstring_const (feed_elem [entry_one])) "<feed>...</feed>"
  = entry_papers entry_one /\
  process_entry entry_nameless_author = Raise AttributeError.
Proof.
  destruct parse_exception_discards_all as (H1 & H2 & H3).
  split; [| split].
  - apply (H1 _ _ feed_with_empty_title eq_refl).
    apply Exists_cons_tl, Exists_cons_hd.
    apply (H2 _ (leaf "title" None)); [done | done | by eexists].
  - by vm_compute.
  - apply (H3 _ (ET.Element (atom "author") [] None [])); [| done].
    vm_compute. constructor.
Defined.

(** ** The date formatter *)

Example ref_format_date :
  format_date_str RefDate.fromisoformat RefDate.strftime_bdY "2024-01-05T10:00:00Z"
  = "Jan 05, 2024" /\
  format_date_str RefDate.fromisoformat RefDate.strftime_bdY "2023-02-29" = "2023-02-29" /\
  format_date RefDate.fromisoformat RefDate.strftime_bdY None = None.
Proof. repeat split; by vm_compute. Qed.

Lemma replace_Z_suffix s :
  PyStr.contains "Z" s = false -> PyStr.replace "Z" "+00:00" (s +:+ "Z") = s +:+ "+00:00".
Proof. intros H. rewrite replace1_app. by rewrite replace_keep. Qed.

(** ** The page *)

#[local] Opaque html_head html_no_results tmpl_paper_0 tmpl_paper_1 tmpl_paper_2 tmpl_paper_3
  tmpl_paper_4 tmpl_badge_0 tmpl_badge_1 tmpl_cats_0 tmpl_cats_1 tmpl_summary_0 tmpl_summary_1
  tmpl_summary_2 tmpl_summary_3 tmpl_footer_0 tmpl_footer_1 tmpl_footer_2 tmpl_footer_3.

Section Page.
Context {datetime : Type}.
Variable fromisoformat : string -> res datetime.
Variable strftime_bdY : datetime -> string.
Variable now : string.
Implicit Types (p : paper) (ps : list paper) (html out : string) (idx : nat).

Lemma contains_app_skip sub s t :
  PyStr.contains sub t = true -> PyStr.contains sub (s +:+ t) = true.
Proof.
  intros (pre & post & ->)%contains_inv. rewrite <- app_assoc_s. apply contains_app_intro.
Qed.

Lemma count_char_digits k d :
  is_markup k = true -> PyStr.count_char k (NilEmpty.string_of_uint d) = 0.
Proof.
  intros Hk. unfold is_markup in Hk. rewrite !orb_true_iff, !Ascii.eqb_eq in Hk.
  induction d; cbn [NilEmpty.string_of_uint PyStr.count_char]; [done | rewrite IHd ..];
    destruct Hk as [[[-> | ->] | ->] | ->]; done.
Qed.

Lemma count_char_str_of_nat k n :
  is_markup k = true -> PyStr.count_char k (PyStr.str_of_nat n) = 0.
Proof.
  intros Hk. unfold PyStr.str_of_nat, NilZero.string_of_uint.
  destruct (Nat.to_uint n) eqn:E; rewrite <- ?E; try by apply count_char_digits.
  unfold is_markup in Hk. rewrite !orb_true_iff, !Ascii.eqb_eq in Hk.
  destruct Hk as [[[-> | ->] | ->] | ->]; done.
Qed.

(** The block that [render_paper] returns. *)
Lemma render_paper_block idx p block :
  render_paper fromisoformat strftime_bdY idx p = Ok block ->
  exists joined_authors joined_categories,
    join_comma (authors p) = Ok joined_authors /\
    joined_categories_of p = Ok joined_categories /\
    block = paper_block (fstr (format_date fromisoformat strftime_bdY (published p)))
                        ("abstract-" +:+ PyStr.str_of_nat idx)
                        joined_authors joined_categories p.
Proof.
  unfold render_paper. fold (joined_categories_of p).
  intros (jc & Hjc & H)%bind_ok. apply bind_ok in H as (ja & Hja & [= <-]).
  exists ja, jc. split; [done |]. split; [done |].
  unfold paper_block, badge_html, cats_html.
  destruct (arxiv_id p) as [i|]; [destruct (PyStr.nonempty i) |];
    destruct (PyStr.nonempty jc); rewrite ?app_assoc_s; reflexivity.
Qed.

(** The markup characters of a block are those of its fixed texts and those
    of the date text. *)
Lemma paper_block_markup k date idx ja jc p :
  is_markup k = true ->
  PyStr.count_char k (paper_block date ("abstract-" +:+ PyStr.str_of_nat idx) ja jc p)
  = PyStr.count_char k (block_texts p jc) + PyStr.count_char k date.
Proof.
  intros Hk. unfold paper_block, block_texts, badge_texts, badge_html, cats_html, truthy.
  assert (PyStr.count_char k "abstract-" = 0) as Ha.
  { unfold is_markup in Hk. rewrite !orb_true_iff, !Ascii.eqb_eq in Hk.
    destruct Hk as [[[-> | ->] | ->] | ->]; done. }
  destruct (arxiv_id p) as [i|]; [destruct (PyStr.nonempty i) |];
    destruct (PyStr.nonempty jc);
    rewrite ?count_char_app, ?escape_no_markup, ?count_char_str_of_nat, ?Ha by done;
    cbn [PyStr.count_char]; lia.
Qed.

Lemma render_papers_prefix idx ps html out :
  render_papers fromisoformat strftime_bdY idx ps html = Ok out ->
  exists tail, out = html +:+ tail.
Proof.
  revert idx html. induction ps as [|p ps IH]; intros idx html; cbn [render_papers].
  - intros [= <-]. exists "". by rewrite app_empty_r.
  - intros (block & Hb & H)%bind_ok. apply IH in H as [tail ->].
    exists (block +:+ tail). by rewrite app_assoc_s.
Qed.

(** Every paper of the list has its block in the page, under its index. *)
Lemma render_papers_block idx ps html out i p :
  render_papers fromisoformat strftime_bdY idx ps html = Ok out ->
  ps !! i = Some p ->
  exists pre block post,
    out = pre +:+ block +:+ post /\
    render_paper fromisoformat strftime_bdY (idx + i) p = Ok block.
Proof.
  revert idx html i. induction ps as [|q ps IH]; intros idx html i; cbn [render_papers];
    [done |].
  intros (block & Hb & H)%bind_ok. destruct i as [|i]; cbn [lookup list_lookup].
  - intros [= ->]. apply render_papers_prefix in H as [tail ->].
    exists html, block, tail. rewrite Nat.add_0_r. split; [by rewrite app_assoc_s | done].
  - intros Hp. destruct (IH _ _ _ H Hp) as (pre & b & post & -> & Hr).
    exists pre, b, post. split; [done |]. by rewrite <- Nat.add_succ_comm.
Qed.

(** The page is a body followed by the footer for the number of papers. *)
Lemma generate_html_parts all_author_papers html :
  generate_html fromisoformat strftime_bdY now all_author_papers = Ok html ->
  exists ps body,
    aggregate all_author_papers = Ok ps /\
    html = body +:+ render_footer now (length ps) /\
    match ps with
    | [] => body = html_head +:+ html_no_results
    | _ :: _ => render_papers fromisoformat strftime_bdY 0 ps html_head = Ok body
    end.
Proof.
  unfold generate_html. intros (ps & Hps & H)%bind_ok.
  apply bind_ok in H as (body & Hbody & [= <-]).
  exists ps, body. split; [done |]. split; [done |].
  destruct ps; [by injection Hbody as <- | done].
Qed.
End Page.

Section Script.
Implicit Types (a b t : string).

Lemma tags_closed_app a b :
  tags_closed a = true -> tags_closed b = true -> tags_closed (a +:+ b) = true.
Proof.
  intros Ha Hb. induction a as [|c a IH]; [done |].
  cbn [tags_closed] in Ha. apply andb_true_iff in Ha as [Hc Ha].
  change (String c a +:+ b) with (String c (a +:+ b)). cbn [tags_closed].
  rewrite IH by done. rewrite andb_true_r.
  destruct (Ascii.eqb c "<"); [| done].
  destruct a as [|c1 [|c2 a]]; done.
Qed.

Lemma tags_closed_no_lt a : PyStr.count_char "<" a = 0 -> tags_closed a = true.
Proof.
  induction a as [|c a IH]; [done |]. cbn [PyStr.count_char tags_closed].
  rewrite Ascii.eqb_sym. destruct (Ascii.eqb c "<"); [done |]. intros H. by rewrite IH.
Qed.

Lemma tags_closed_no_script a : tags_closed a = true -> PyStr.contains "<script>" a = false.
Proof.
  induction a as [|c a IH]; [done |]. cbn [tags_closed]. intros [Hc Ha]%andb_true_iff.
  cbn [PyStr.contains]. rewrite IH by done. rewrite orb_false_r.
  cbn [String.prefix]. destruct (ascii_dec "<" c) as [<- |]; [| done].
  destruct a as [|c1 [|c2 a]]; try done. cbn [Ascii.eqb Bool.eqb] in Hc.
  cbn [String.prefix].
  destruct (ascii_dec "s" c1) as [<- |]; [| done].
  destruct (ascii_dec "c" c2) as [<- |]; [| done]. done.
Qed.

Lemma tags_closed_escape a : tags_closed (escape a) = true.
Proof. apply tags_closed_no_lt. by apply escape_no_markup. Qed.
End Script.

Ltac tags_closed_pieces :=
  first [ apply tags_closed_escape
        | assumption
        | vm_compute; reflexivity
        | apply tags_closed_app; tags_closed_pieces ].

Section PageClaims.
Context {datetime : Type}.
Variable fromisoformat : string -> res datetime.
Variable strftime_bdY : datetime -> string.
Variable now : string.

Lemma paper_block_tags_closed date idx ja jc p :
  PyStr.count_char "<" date = 0 ->
  tags_closed (paper_block date ("abstract-" +:+ PyStr.str_of_nat idx) ja jc p) = true.
Proof.
  intros Hd. unfold paper_block, badge_html, cats_html.
  assert (tags_closed ("abstract-" +:+ PyStr.str_of_nat idx) = true) as Ha.
  { apply tags_closed_no_lt. rewrite count_char_app, count_char_str_of_nat; done. }
  assert (tags_closed date = true) as Hdate by by apply tags_closed_no_lt.
  destruct (arxiv_id p) as [i|]; [destruct (PyStr.nonempty i) |];
    destruct (PyStr.nonempty jc); tags_closed_pieces.
Qed.

(** When no date text holds a [<], no [<script>] starts in what the loop
    appends. *)
Lemma render_papers_tags_closed idx ps html out :
  Forall (fun p => PyStr.count_char "<" (date_text fromisoformat strftime_bdY p) = 0) ps ->
  tags_closed html = true ->
  render_papers fromisoformat strftime_bdY idx ps html = Ok out ->
  tags_closed out = true.
Proof.
  revert idx html. induction ps as [|p ps IH]; intros idx html Hd Hh; cbn [render_papers].
  - by intros [= <-].
  - apply Forall_cons in Hd as [Hp Hd]. intros (block & Hb & H)%bind_ok.
    apply (IH _ _ Hd) in H; [done |]. apply tags_closed_app; [done |].
    apply render_paper_block in Hb as (ja & jc & _ & _ & ->).
    by apply paper_block_tags_closed.
Qed.
End PageClaims.

(** C3: in a page that [generate_html] returns, the block of every paper
    holds its title, authors, URL, categories, summary and identifier only in
    the form that [escape] gives them.  The characters [<], [>] and the two
    quotes in a block are those of the fixed texts of the template and those
    of the date text, so that none comes from these six.  A title that holds
    [<script>] is in the page with [&lt;script&gt;] in its place, and when no
    date text holds a [<], no [<script>] occurs before the footer, which
    holds the script element of the page itself. *)
Theorem rendered_fields_escaped
    {datetime : Type} (fromisoformat : string -> res datetime)
    (strftime_bdY : datetime -> string) (now : string)
    (all_author_papers : list author_data) (html : string) :
  generate_html fromisoformat strftime_bdY now all_author_papers = Ok html ->
  exists ps body,
    aggregate all_author_papers = Ok ps /\
    html = body +:+ render_footer now (length ps) /\
    (Forall (fun p => PyStr.count_char "<" (date_text fromisoformat strftime_bdY p) = 0) ps ->
     PyStr.contains "<script>" body = false) /\
    forall idx p, ps !! idx = Some p ->
      exists pre post joined_authors joined_categories,
        join_comma (authors p) = Ok joined_authors /\
        joined_categories_of p = Ok joined_categories /\
        let date := date_text fromisoformat strftime_bdY p in
        let block := paper_block date ("abstract-" +:+ PyStr.str_of_nat idx)
                                 joined_authors joined_categories p in
        body = pre +:+ block +:+ post /\
        (forall k, is_markup k = true ->
           PyStr.count_char k block
           = PyStr.count_char k (block_texts p joined_categories) + PyStr.count_char k date) /\
        (PyStr.contains "<script>" (title p) = true ->
           PyStr.contains "&lt;script&gt;" (escape (title p)) = true /\
           PyStr.contains "<script>" (escape (title p)) = false).
Proof.
  intros H. apply generate_html_parts in H as (ps & body & Hps & -> & Hbody).
  exists ps, body. split; [done |]. split; [done |]. split.
  - intros Hd. apply tags_closed_no_script. destruct ps as [|p ps]; [subst body; by vm_compute |].
    eapply render_papers_tags_closed; [exact Hd | | exact Hbody]. by vm_compute.
  - intros idx p Hp. destruct ps as [|q ps]; [done |].
    destruct (render_papers_block _ _ _ _ _ _ _ _ Hbody Hp) as (pre & block & post & -> & Hb).
    apply render_paper_block in Hb as (ja & jc & Hja & Hjc & ->).
    exists pre, post, ja, jc. split; [done |]. split; [done |]. cbn zeta.
    split; [done |]. split.
    + intros k Hk. by apply paper_block_markup.
    + intros Ht. split; [by apply escape_script_kept | apply escape_script_gone].
Qed.

Lemma rendered_fields_escaped_witness :
  exists html,
    generate_html RefDate.fromisoformat RefDate.strftime_bdY "Jan 06, 2024 at 10:00 AM"
                  script_input = Ok html /\
    PyStr.contains "&lt;script&gt;" html = true /\
    exists p, aggregate script_input = Ok [p] /\ title p = "On <script> tags" /\
              PyStr.contains "<script>" (escape (title p)) = false.
Proof.
  destruct (generate_html RefDate.fromisoformat RefDate.strftime_bdY
              "Jan 06, 2024 at 10:00 AM" script_input) as [html|] eqn:E;
    [| vm_compute in E; discriminate].
  pose proof (rendered_fields_escaped _ _ _ _ _ E) as (ps & body & Hps & _ & _ & Hblock).
  exists html. split; [reflexivity |]. split.
  - vm_compute in E. injection E as <-. vm_compute. reflexivity.
  - vm_compute in Hps. injection Hps as <-.
    destruct (Hblock 0 _ eq_refl) as (pre & post & ja & jc & _ & _ & _ & _ & Hs).
    destruct (Hs eq_refl) as [_ Hgone].
    eexists. split; [vm_compute; reflexivity |]. split; [reflexivity | exact Hgone].
Defined.

Lemma plural_suffix_s n : plural_suffix n = "s" <-> n <> 1.
Proof.
  unfold plural_suffix. destruct (n =? 1) eqn:E; cbn [negb].
  - apply Nat.eqb_eq in E. split; [done | lia].
  - apply Nat.eqb_neq in E. done.
Qed.

Lemma plural_suffix_none n : plural_suffix n = "" <-> n = 1.
Proof.
  unfold plural_suffix. destruct (n =? 1) eqn:E; cbn [negb].
  - apply Nat.eqb_eq in E. done.
  - apply Nat.eqb_neq in E. split; [done | lia].
Qed.

Lemma render_footer_form now n :
  render_footer now n
  = tmpl_footer_0 +:+ now +:+ " | " +:+ PyStr.str_of_nat n +:+ " paper" +:+
    plural_suffix n +:+ tmpl_footer_3.
Proof.
  unfold render_footer, plural_suffix.
  replace tmpl_footer_1 with " | " by (vm_compute; reflexivity).
  replace tmpl_footer_2 with " paper" by (vm_compute; reflexivity). done.
Qed.

Lemma render_footer_contains now body n text :
  PyStr.contains text (" | " +:+ PyStr.str_of_nat n +:+ " paper" +:+ plural_suffix n +:+
                       tmpl_footer_3) = true ->
  PyStr.contains text (body +:+ render_footer now n) = true.
Proof.
  intros H. rewrite render_footer_form. by do 3 apply contains_app_skip.
Qed.

(** C8: the page ends with the footer for the number of aggregated papers;
    the footer reads [<count> paper] followed by [s] exactly when the count is
    not 1, and then [ displayed]; for the counts 0, 1 and 2 the page holds
    [0 papers displayed], [1 paper displayed] and [2 papers displayed]. *)
Theorem footer_pluralizes
    {datetime : Type} (fromisoformat : string -> res datetime)
    (strftime_bdY : datetime -> string) (now : string)
    (all_author_papers : list author_data) (html : string) :
  generate_html fromisoformat strftime_bdY now all_author_papers = Ok html ->
  exists ps body,
    aggregate all_author_papers = Ok ps /\
    html = body +:+ render_footer now (length ps) /\
    (forall n, render_footer now n
               = tmpl_footer_0 +:+ now +:+ " | " +:+ PyStr.str_of_nat n +:+ " paper" +:+
                 plural_suffix n +:+ tmpl_footer_3) /\
    (forall n, (plural_suffix n = "s" <-> n <> 1) /\ (plural_suffix n = "" <-> n = 1)) /\
    String.prefix " displayed</div>" tmpl_footer_3 = true /\
    (length ps = 0 -> PyStr.contains " | 0 papers displayed</div>" html = true) /\
    (length ps = 1 -> PyStr.contains " | 1 paper displayed</div>" html = true) /\
    (length ps = 2 -> PyStr.contains " | 2 papers displayed</div>" html = true).
Proof.
  intros H. apply generate_html_parts in H as (ps & body & Hps & -> & _).
  exists ps, body. split; [done |]. split; [done |].
  split; [apply render_footer_form |].
  split; [intros n; split; [apply plural_suffix_s | apply plural_suffix_none] |].
  split; [vm_compute; reflexivity |].
  repeat split; intros ->; apply render_footer_contains; vm_compute; reflexivity.
Qed.

Lemma footer_pluralizes_witness :
  exists html,
    generate_html RefDate.fromisoformat RefDate.strftime_bdY "Jan 06, 2024 at 10:00 AM"
                  script_input = Ok html /\
    PyStr.contains " | 1 paper displayed</div>" html = true.
Proof.
  destruct (generate_html RefDate.fromisoformat RefDate.strftime_bdY
              "Jan 06, 2024 at 10:00 AM" script_input) as [html|] eqn:E;
    [| vm_compute in E; discriminate].
  pose proof (footer_pluralizes _ _ _ _ _ E) as (ps & body & Hps & _ & _ & _ & _ & _ & H1 & _).
  exists html. split; [reflexivity |]. apply H1.
  vm_compute in Hps. by injection Hps as <-.
Defined.

Example footer_counts now :
  PyStr.contains "0 papers" (render_footer now 0) = true /\
  PyStr.contains "1 paper" (render_footer now 1) = true /\
  PyStr.contains "2 papers" (render_footer now 2) = true.
Proof.
  rewrite !render_footer_form.
  repeat split; do 2 apply contains_app_skip; vm_compute; reflexivity.
Qed.

Example page_without_papers :
  exists html,
    generate_html RefDate.fromisoformat RefDate.strftime_bdY "Jan 06, 2024 at 10:00 AM" []
    = Ok html /\
    PyStr.contains "No papers found" html = true /\
    PyStr.contains " | 0 papers displayed</div>" html = true.
Proof. eexists. split; [vm_compute; reflexivity |]. split; vm_compute; reflexivity. Qed.

Example page_of_scenario :
  exists html,
    generate_html RefDate.fromisoformat RefDate.strftime_bdY "Jan 06, 2024 at 10:00 AM"
                  scenario = Ok html /\
    PyStr.contains " | 3 papers displayed</div>" html = true /\
    PyStr.contains "Jan 01, 2024" html = true.
Proof. eexists. split; [vm_compute; reflexivity |]. split; vm_compute; reflexivity. Qed.

(** ** The formatted date *)

(** C7: [format_date] raises nothing, and on every string it returns either
    [strftime] of the date that [fromisoformat] reads from the string with
    its [Z] replaced by [+00:00], or, when [fromisoformat] raises, the string
    itself; a [Z] at the end of a string without another [Z] becomes
    [+00:00]; [not-a-date], which [fromisoformat] rejects, comes back as it
    is, and it is the text that stands between the fixed texts around the
    date in the block of a record published [not-a-date]. *)
Theorem format_date_best_effort
    {datetime : Type} (fromisoformat : string -> res datetime)
    (strftime_bdY : datetime -> string) :
  is_ok (fromisoformat "not-a-date") = false ->
  (forall s,
     (exists dt, fromisoformat (PyStr.replace "Z" "+00:00" s) = Ok dt /\
                 format_date fromisoformat strftime_bdY (Some s) = Some (strftime_bdY dt)) \/
     (is_ok (fromisoformat (PyStr.replace "Z" "+00:00" s)) = false /\
      format_date fromisoformat strftime_bdY (Some s) = Some s)) /\
  (forall s,
     (exists dt, fromisoformat (PyStr.replace "Z" "+00:00" s) = Ok dt /\
                 format_date_str fromisoformat strftime_bdY s = strftime_bdY dt) \/
     (is_ok (fromisoformat (PyStr.replace "Z" "+00:00" s)) = false /\
      format_date_str fromisoformat strftime_bdY s = s)) /\
  (forall s, PyStr.contains "Z" s = false ->
             PyStr.replace "Z" "+00:00" (s +:+ "Z") = s +:+ "+00:00") /\
  format_date_str fromisoformat strftime_bdY "not-a-date" = "not-a-date" /\
  format_date fromisoformat strftime_bdY (Some "not-a-date") = Some "not-a-date" /\
  format_date fromisoformat strftime_bdY None = None /\
  (forall idx p block,
     published p = Some "not-a-date" ->
     render_paper fromisoformat strftime_bdY idx p = Ok block ->
     exists joined_authors joined_categories,
       block = tmpl_paper_0 +:+ escape (url p) +:+ tmpl_paper_1 +:+ escape (title p) +:+
               tmpl_paper_2 +:+ escape joined_authors +:+ tmpl_paper_3 +:+
               "not-a-date" +:+ tmpl_paper_4 +:+
               badge_html p +:+ cats_html joined_categories +:+
               tmpl_summary_0 +:+ abstract_id_of idx +:+ tmpl_summary_1 +:+
               escape (summary p) +:+ tmpl_summary_2 +:+ abstract_id_of idx +:+
               tmpl_summary_3).
Proof.
  intros Hnot.
  assert (format_date_str fromisoformat strftime_bdY "not-a-date" = "not-a-date") as E.
  { unfold format_date_str.
    change (PyStr.replace "Z" "+00:00" "not-a-date") with "not-a-date".
    by destruct (fromisoformat "not-a-date"). }
  assert (forall s,
     (exists dt, fromisoformat (PyStr.replace "Z" "+00:00" s) = Ok dt /\
                 format_date_str fromisoformat strftime_bdY s = strftime_bdY dt) \/
     (is_ok (fromisoformat (PyStr.replace "Z" "+00:00" s)) = false /\
      format_date_str fromisoformat strftime_bdY s = s)) as Hstr.
  { intros s. unfold format_date_str.
    destruct (fromisoformat (PyStr.replace "Z" "+00:00" s)) as [dt|e]; [left | right]; eauto. }
  split; [| split; [exact Hstr | split; [apply replace_Z_suffix | split; [done | split; [| split]]]]].
  - intros s. cbn [format_date].
    destruct (Hstr s) as [(dt & Hdt & ->) | [Hr ->]]; [left | right]; eauto.
  - cbn [format_date]. by rewrite E.
  - done.
  - intros idx p block Hp (ja & jc & _ & _ & ->)%render_paper_block.
    exists ja, jc. rewrite Hp. cbn [format_date]. rewrite E. reflexivity.
Qed.

Lemma format_date_best_effort_witness :
  format_date RefDate.fromisoformat RefDate.strftime_bdY (Some "2024-01-05T10:00:00Z")
  = Some "Jan 05, 2024" /\
  format_date RefDate.fromisoformat RefDate.strftime_bdY (Some "not-a-date")
  = Some "not-a-date".
Proof.
  pose proof (format_date_best_effort RefDate.fromisoformat RefDate.strftime_bdY eq_refl)
    as (H & _ & _ & _ & Hnot & _).
  split; [| exact Hnot].
  destruct (H "2024-01-05T10:00:00Z") as [(dt & E & ->) | [E _]].
  - vm_compute in E. injection E as <-. by vm_compute.
  - vm_compute in E. discriminate.
Defined.

(** ** The empty identifier *)

(** C10, as amended: the identifier is the empty string exactly when the URL
    is made of pieces that the scan of [split] passes over, each followed by
    the marker [/abs/], with nothing behind the last one; such a URL ends with
    the marker, and every URL that ends with the marker but not with
    [/abs/abs/] is one.  A record with the empty identifier is appended by
    the merge without the set of seen identifiers being read or changed, and
    its block is the one of the same record without an identifier: the
    category badge, if any, follows the date at once, and no identifier
    badge stands between them. *)
Theorem empty_id_same_as_absent :
  (forall u, arxiv_id_of_url u = Ok (Some "") <->
             exists ps, ps <> [] /\ Forall scan_free ps /\ u = glue ps "") /\
  (forall u, arxiv_id_of_url u = Ok (Some "") -> exists w, u = w +:+ "/abs/") /\
  (forall w, (forall v, w <> v +:+ "/abs") -> arxiv_id_of_url (w +:+ "/abs/") = Ok (Some "")) /\
  (forall w, PyStr.contains "/abs/" (w +:+ "/abs") = false ->
             arxiv_id_of_url (w +:+ "/abs/") = Ok (Some "")) /\
  (exists p, process_entry entry_marker_at_end = Ok (Some p) /\
             url p = "http://arxiv.org/abs/1234/abs/" /\ arxiv_id p = Some "") /\
  (forall p all_papers seen, arxiv_id p = Some "" ->
     merge_step (all_papers, seen) p = (all_papers ++ [p], seen) /\
     merge_step (all_papers, seen) (with_arxiv_id None p) = (all_papers ++ [with_arxiv_id None p], seen)) /\
  (forall datetime (fromisoformat : string -> res datetime) strftime_bdY idx p,
     arxiv_id p = Some "" ->
     render_paper fromisoformat strftime_bdY idx p
     = render_paper fromisoformat strftime_bdY idx (with_arxiv_id None p)) /\
  (forall datetime (fromisoformat : string -> res datetime) strftime_bdY idx p block,
     arxiv_id p = Some "" ->
     render_paper fromisoformat strftime_bdY idx p = Ok block ->
     exists joined_authors joined_categories,
       join_comma (authors p) = Ok joined_authors /\
       joined_categories_of p = Ok joined_categories /\
       block = tmpl_paper_0 +:+ escape (url p) +:+ tmpl_paper_1 +:+ escape (title p) +:+
               tmpl_paper_2 +:+ escape joined_authors +:+ tmpl_paper_3 +:+
               date_text fromisoformat strftime_bdY p +:+ tmpl_paper_4 +:+
               cats_html joined_categories +:+
               tmpl_summary_0 +:+ abstract_id_of idx +:+ tmpl_summary_1 +:+
               escape (summary p) +:+ tmpl_summary_2 +:+ abstract_id_of idx +:+
               tmpl_summary_3) /\
  (forall datetime (fromisoformat : string -> res datetime) strftime_bdY idx p i block,
     arxiv_id p = Some i -> i <> "" ->
     render_paper fromisoformat strftime_bdY idx p = Ok block ->
     exists joined_authors joined_categories,
       join_comma (authors p) = Ok joined_authors /\
       joined_categories_of p = Ok joined_categories /\
       block = tmpl_paper_0 +:+ escape (url p) +:+ tmpl_paper_1 +:+ escape (title p) +:+
               tmpl_paper_2 +:+ escape joined_authors +:+ tmpl_paper_3 +:+
               date_text fromisoformat strftime_bdY p +:+ tmpl_paper_4 +:+
               (tmpl_badge_0 +:+ escape i +:+ tmpl_badge_1) +:+
               cats_html joined_categories +:+
               tmpl_summary_0 +:+ abstract_id_of idx +:+ tmpl_summary_1 +:+
               escape (summary p) +:+ tmpl_summary_2 +:+ abstract_id_of idx +:+
               tmpl_summary_3).
Proof.
  assert (forall u, arxiv_id_of_url u = Ok (Some "") <->
                    exists ps, ps <> [] /\ Forall scan_free ps /\ u = glue ps "") as Hiff.
  { intros u. split.
    - intros H. destruct (arxiv_id_of_url_pieces u)
        as [[_ H'] | (q & qs & i & E & Hqs & Hi & H')]; [congruence |].
      rewrite H in H'. injection H' as <-. by exists (q :: qs).
    - intros (ps & Hne & Hps & ->). by apply arxiv_id_of_glue. }
  split; [exact Hiff |]. split; [| split; [| split; [| split; [| split; [| split; [| split]]]]]].
  - intros u (ps & Hne & _ & ->)%Hiff.
    destruct (glue_unfold_last ps "" Hne) as [t ->]. exists t. by rewrite app_empty_r.
  - apply arxiv_id_marker_at_end.
  - intros w H. apply (Hiff (w +:+ "/abs/")). exists [w]. split; [done |].
    split; [by constructor |]. cbn [glue]. by rewrite app_empty_r.
  - eexists. split; [vm_compute; reflexivity |]. by vm_compute.
  - intros p acc seen Hp. unfold merge_step. rewrite Hp. by simpl.
  - intros dt fi sf idx p Hp. unfold render_paper. rewrite Hp. by simpl.
  - intros dt fi sf idx p block Hp (ja & jc & Hja & Hjc & ->)%render_paper_block.
    exists ja, jc. split; [done |]. split; [done |].
    unfold paper_block, badge_html, date_text, abstract_id_of. rewrite Hp. reflexivity.
  - intros dt fi sf idx p i block Hp Hi (ja & jc & Hja & Hjc & ->)%render_paper_block.
    exists ja, jc. split; [done |]. split; [done |].
    unfold paper_block, badge_html, date_text, abstract_id_of. rewrite Hp.
    destruct i; [done |]. reflexivity.
Qed.

(** C10 as stated fails: a URL can end with the marker and still yield a
    non-empty identifier, because the scan of [split] takes occurrences from
    the left and they do not overlap. *)
Lemma abs_abs_id_not_empty :
  "http://arxiv.org/abs/abs/" = "http://arxiv.org/abs" +:+ "/abs/" /\
  arxiv_id_of_url "http://arxiv.org/abs/abs/" = Ok (Some "abs/") /\
  (exists p, process_entry entry_abs_abs = Ok (Some p) /\
             url p = "http://arxiv.org/abs/abs/" /\ arxiv_id p = Some "abs/" /\
             truthy (arxiv_id p) = true).
Proof.
  split; [done |]. split; [by vm_compute |].
  eexists. split; [vm_compute; reflexivity |]. by vm_compute.
Qed.

(** ** A run of main *)

Example main_example :
  map (fun a => length (papers (author_papers urlopen_example fromstring_example a))) AUTHORS
  = [2; 0; 0] /\
  map feed_url AUTHORS
  = [ "https://arxiv.org/a/bartel_a_1.atom2"; "https://arxiv.org/a/paterson_r_1.atom2";
      "https://arxiv.org/a/0000-0001-5892-1564.atom2" ] /\
  exists html,
    main RefDate.fromisoformat RefDate.strftime_bdY "Jan 06, 2024 at 10:00 AM"
         urlopen_example fromstring_example = Ok html /\
    PyStr.contains " | 2 papers displayed</div>" html = true /\
    PyStr.contains "On &lt;script&gt; tags" html = true.
Proof.
  split; [vm_compute; reflexivity |]. split; [vm_compute; reflexivity |].
  eexists. split; [vm_compute; reflexivity |]. split; vm_compute; reflexivity.
Qed.

(** * Further properties *)

(** ** The merge, once more *)

Section MergeMore.
Implicit Types (p q : paper) (l : list paper) (seen : gset string).

Lemma truthy_some o : truthy o = true -> exists i, o = Some i /\ i <> "".
Proof. destruct o as [[|c i]|]; [done | | done]. intros _. by eexists. Qed.

Lemma key_id_some p i : key_id p = Some i <-> arxiv_id p = Some i /\ i <> "".
Proof.
  unfold key_id. destruct (truthy (arxiv_id p)) eqn:Ht.
  - apply truthy_some in Ht as (j & Hj & Hne). rewrite Hj. split.
    + by intros [= ->].
    + by intros [[= ->] _].
  - split; [done |]. intros [Hi Hne]. rewrite Hi in Ht. by destruct i.
Qed.

Lemma ids_cons p l :
  ids (p :: l) = match key_id p with Some i => i :: ids l | None => ids l end.
Proof. done. Qed.

(** The identifiers that the merge keeps are pairwise distinct and were not
    seen before. *)
Lemma ids_dedup seen l :
  NoDup (ids (dedup seen l)) /\ forall i, i ∈ ids (dedup seen l) -> i ∉ seen.
Proof.
  revert seen. induction l as [|p l IH]; intros seen; cbn [dedup].
  - split; [constructor | by intros i ?%elem_of_nil].
  - destruct (truthy (arxiv_id p)) eqn:Ht; cbn [andb].
    + destruct (truthy_some _ Ht) as (i & Hi & Hne). rewrite Hi. cbn [in_seen seen_add].
      case_bool_decide as Hs; [apply IH |].
      rewrite ids_cons. replace (key_id p) with (Some i) by (symmetry; by apply key_id_some).
      destruct (IH ({[i]} ∪ seen)) as [Hnd Hfresh]. split.
      * constructor; [| done]. intros Hin. apply Hfresh in Hin. set_solver.
      * intros j [-> | Hj]%elem_of_cons; [done |]. apply Hfresh in Hj. set_solver.
    + rewrite ids_cons. replace (key_id p) with (@None string) by (unfold key_id; by rewrite Ht).
      apply IH.
Qed.

(** A list whose identifiers are pairwise distinct and not yet seen passes
    the merge unchanged. *)
Lemma dedup_id seen l :
  NoDup (ids l) -> (forall i, i ∈ ids l -> i ∉ seen) -> dedup seen l = l.
Proof.
  revert seen. induction l as [|p l IH]; intros seen Hnd Hfresh; cbn [dedup]; [done |].
  rewrite ids_cons in Hnd, Hfresh.
  destruct (truthy (arxiv_id p)) eqn:Ht; cbn [andb].
  - destruct (truthy_some _ Ht) as (i & Hi & Hne).
    replace (key_id p) with (Some i) in * by (symmetry; by apply key_id_some).
    rewrite Hi. cbn [in_seen seen_add].
    rewrite bool_decide_eq_false_2 by (apply Hfresh; by left).
    apply NoDup_cons in Hnd as [Hni Hnd]. f_equal. apply IH; [done |].
    intros j Hj. assert (j ∉ seen) by (apply Hfresh; by right). set_solver.
  - unfold key_id in Hnd, Hfresh. rewrite Ht in Hnd, Hfresh. f_equal. by apply IH.
Qed.

Lemma dedup_app seen l l' :
  exists seen', dedup seen (l ++ l') = dedup seen l ++ dedup seen' l'.
Proof.
  revert seen. induction l as [|p l IH]; intros seen; cbn [app dedup]; [by exists seen |].
  destruct (truthy (arxiv_id p) && in_seen (arxiv_id p) seen); [apply IH |].
  destruct (IH (if truthy (arxiv_id p) then seen_add (arxiv_id p) seen else seen))
    as [seen' ->].
  by exists seen'.
Qed.

Lemma flat_papers_app aps aps' : flat_papers (aps ++ aps') = flat_papers aps ++ flat_papers aps'.
Proof. unfold flat_papers. by rewrite map_app, concat_app. Qed.

Lemma merge_papers_of_flat aps aps' :
  flat_papers aps = flat_papers aps' -> merge_papers aps = merge_papers aps'.
Proof. intros H. by rewrite !merge_papers_dedup, H. Qed.
End MergeMore.

(** X4: the merged list of a longer author list starts with the merged list of
    the shorter one: an author added at the end neither removes nor moves a
    record of the authors before. *)
Theorem merge_papers_prefix (aps aps' : list author_data) :
  merge_papers aps `prefix_of` merge_papers (aps ++ aps').
Proof.
  rewrite !merge_papers_dedup, flat_papers_app.
  destruct (dedup_app ∅ (flat_papers aps) (flat_papers aps')) as [seen' ->].
  by eexists.
Qed.

(** X5: the page is a function of the papers in iteration order alone: how
    they are grouped by author, and who the authors are, has no effect. *)
Theorem generate_html_flat
    {datetime : Type} (fromisoformat : string -> res datetime)
    (strftime_bdY : datetime -> string) (now : string) (aps aps' : list author_data) :
  flat_papers aps = flat_papers aps' ->
  generate_html fromisoformat strftime_bdY now aps
  = generate_html fromisoformat strftime_bdY now aps'.
Proof.
  intros H. unfold generate_html, aggregate. by rewrite (merge_papers_of_flat _ _ H).
Qed.

Lemma generate_html_flat_witness :
  generate_html RefDate.fromisoformat RefDate.strftime_bdY "Jan 06, 2024 at 10:00 AM" scenario
  = generate_html RefDate.fromisoformat RefDate.strftime_bdY "Jan 06, 2024 at 10:00 AM"
      [AuthorData (Author "Somebody Else" "x_1" "orcid") [P1; P2; P2_copy]; 
       AuthorData (Author "Nobody" "y_1" "arxiv") [];
       AuthorData (Author "Author B" "b_1" "arxiv") [P3]].
Proof. apply generate_html_flat. reflexivity. Defined.

(** ** The sort, once more *)

Section SortMore.
Implicit Types (p q : paper) (l out : list paper).

Lemma insert_desc_type_error p l e : insert_desc p l = Raise e -> e = TypeError.
Proof.
  induction l as [|q l IH]; cbn [insert_desc]; [done |].
  destruct (updated p), (updated q); cbn [key_lt bind]; try by intros [= <-].
  destruct (String.ltb _ _); [| done].
  destruct (insert_desc p l); cbn [bind]; [done |]. intros [= <-]. by apply IH.
Qed.

Lemma sort_by_updated_type_error l e : sort_by_updated l = Raise e -> e = TypeError.
Proof.
  induction l as [|p l IH]; cbn [sort_by_updated]; [done |].
  destruct (sort_by_updated l) as [s|e']; cbn [bind].
  - apply insert_desc_type_error.
  - intros [= <-]. by apply IH.
Qed.

(** A list in descending order of its keys is returned as it is. *)
Lemma sorted_sort_id l : StronglySorted updated_ge l -> sort_by_updated l = Ok l.
Proof.
  induction l as [|p l IH]; [done |]. intros [Hall Hs]%StronglySorted_cons.
  cbn [sort_by_updated]. rewrite IH by done. cbn [bind].
  destruct l as [|q l]; [done |]. apply Forall_cons in Hall as [Hpq _].
  cbn [insert_desc]. unfold updated_ge in Hpq.
  destruct (updated p), (updated q); try done. cbn [key_lt bind]. by rewrite Hpq.
Qed.

Lemma sort_by_updated_idem l out : sort_by_updated l = Ok out -> sort_by_updated out = Ok out.
Proof.
  intros H. assert (is_ok (sort_by_updated l) = true) as Hok by by rewrite H.
  apply sort_by_updated_ok in Hok as [Hlen | Hall].
  - destruct l as [|p [|q l]]; [| | simpl in Hlen; lia]; cbn in H; by simplify_eq.
  - destruct (sort_by_updated_spec l Hall) as (r & Hr & _ & Hs & _).
    rewrite H in Hr. injection Hr as <-. by apply sorted_sort_id.
Qed.
End SortMore.

(** X2: the sort raises exactly when the merged list holds two or more records
    and the [updated] value of one of them is [None]; the exception is then
    [TypeError]. *)
Theorem aggregate_raises_iff (aps : list author_data) :
  (aggregate aps = Raise TypeError <->
   2 <= length (merge_papers aps) /\ Exists (fun p => updated p = None) (merge_papers aps)) /\
  (forall e, aggregate aps = Raise e -> e = TypeError).
Proof.
  unfold aggregate. split; [| apply sort_by_updated_type_error].
  pose proof (sort_by_updated_ok (merge_papers aps)) as Hok.
  assert (Forall has_key (merge_papers aps) <->
          ~ Exists (fun p => updated p = None) (merge_papers aps)) as Hk.
  { rewrite <- Forall_Exists_neg. apply Forall_iff. intros p. unfold has_key.
    destruct (updated p) as [x|]; split; intros H;
      first [done | by exists x | by destruct H]. }
  split.
  - intros H. rewrite H in Hok. cbn [is_ok] in Hok. split.
    + destruct (decide (2 <= length (merge_papers aps))); [done |].
      assert (false = true) by (apply Hok; left; lia). done.
    + destruct (decide (Exists (fun p => updated p = None) (merge_papers aps))); [done |].
      assert (false = true) by (apply Hok; right; by apply Hk). done.
  - intros [Hlen Hex]. destruct (sort_by_updated (merge_papers aps)) as [r|e] eqn:E.
    + cbn [is_ok] in Hok. destruct Hok as [[Hl | Hall] _]; [done | lia |].
      apply Hk in Hall. done.
    + by rewrite (sort_by_updated_type_error _ _ E).
Qed.

Lemma aggregate_sorted_stable_witness :
  exists out, aggregate scenario = Ok out /\ StronglySorted updated_ge out /\
              out ≡ₚ merge_papers scenario.
Proof.
  destruct (aggregate_sorted_stable scenario) as (out & Hout & Hperm & Hsort & _).
  - repeat constructor; by eexists.
  - by exists out.
Defined.

(** X3: the aggregated list is a fixed point: given back as the papers of one
    author it is merged and sorted into itself. *)
Theorem aggregate_idempotent (aps : list author_data) (a : author) (out : list paper) :
  aggregate aps = Ok out -> aggregate [AuthorData a out] = Ok out.
Proof.
  unfold aggregate. intros H.
  assert (merge_papers [AuthorData a out] = out) as ->.
  { rewrite merge_papers_dedup. unfold flat_papers. cbn [map concat papers].
    rewrite app_nil_r. apply sort_by_updated_perm in H.
    rewrite merge_papers_dedup in H.
    destruct (ids_dedup ∅ (flat_papers aps)) as [Hnd _].
    apply dedup_id; [| set_solver]. unfold ids in *. by rewrite H. }
  by eapply sort_by_updated_idem.
Qed.

Lemma aggregate_idempotent_witness :
  aggregate [AuthorData (Author "Author A" "a_1" "arxiv") [P2; P1; P3]] = Ok [P2; P1; P3].
Proof.
  apply (aggregate_idempotent scenario). vm_compute. reflexivity.
Defined.

(** ** The page, once more *)

Section PageMore.
Context {datetime : Type}.
Variable fromisoformat : string -> res datetime.
Variable strftime_bdY : datetime -> string.
Implicit Types (p : paper) (ps : list paper) (html : string).

Lemma join_is_some sep (l : list (option string)) :
  is_Some (PyStr.join sep l) <-> Forall is_Some l.
Proof.
  induction l as [|[x|] l IH].
  - split; [constructor | by eexists].
  - rewrite Forall_cons, <- IH. destruct l as [|y l].
    + split; [intros _; split; by eexists | by eexists].
    + change (PyStr.join sep (Some x :: y :: l))
        with (match PyStr.join sep (y :: l) with
              | Some r => Some (x +:+ sep +:+ r)
              | None => None
              end).
      destruct (PyStr.join sep (y :: l)); split.
      * intros _. split; by eexists.
      * by eexists.
      * by intros [].
      * by intros [_ []].
  - split; [by intros [] | intros [[] _]%Forall_cons; done].
Qed.

Lemma join_comma_ok (l : list (option string)) :
  is_ok (join_comma l) = true <-> Forall is_Some l.
Proof.
  rewrite <- (join_is_some ", "). unfold join_comma.
  destruct (PyStr.join ", " l); split; intros H; first [done | by eexists | by destruct H].
Qed.

Lemma join_comma_type_error (l : list (option string)) e : join_comma l = Raise e -> e = TypeError.
Proof. unfold join_comma. destruct (PyStr.join ", " l); [done | by intros [= <-]]. Qed.

Lemma render_paper_ok idx p :
  is_ok (render_paper fromisoformat strftime_bdY idx p) = true <-> joinable p.
Proof.
  unfold render_paper, joinable. rewrite <- !join_comma_ok.
  destruct (categories p) as [|c cs] eqn:Ec.
  - cbn [bind]. destruct (join_comma (authors p)); cbn [bind is_ok]; by intuition.
  - destruct (join_comma (c :: cs)); cbn [bind is_ok]; [| by intuition].
    destruct (join_comma (authors p)); cbn [bind is_ok]; by intuition.
Qed.

Lemma render_paper_type_error idx p e :
  render_paper fromisoformat strftime_bdY idx p = Raise e -> e = TypeError.
Proof.
  unfold render_paper.
  destruct (categories p) as [|c cs]; cbn [bind].
  - destruct (join_comma (authors p)) eqn:E; cbn [bind]; [done |].
    intros [= <-]. by eapply join_comma_type_error.
  - destruct (join_comma (c :: cs)) eqn:Ec; cbn [bind].
    + destruct (join_comma (authors p)) eqn:E; cbn [bind]; [done |].
      intros [= <-]. by eapply join_comma_type_error.
    + intros [= <-]. by eapply join_comma_type_error.
Qed.

Lemma render_papers_ok idx ps html :
  is_ok (render_papers fromisoformat strftime_bdY idx ps html) = true <-> Forall joinable ps.
Proof.
  revert idx html. induction ps as [|p ps IH]; intros idx html; cbn [render_papers].
  - split; [constructor | done].
  - rewrite Forall_cons, <- (render_paper_ok idx).
    destruct (render_paper fromisoformat strftime_bdY idx p) as [b|]; cbn [bind is_ok].
    + rewrite (IH (S idx) (html +:+ b)). by intuition.
    + by intuition.
Qed.

Lemma render_papers_type_error idx ps html e :
  render_papers fromisoformat strftime_bdY idx ps html = Raise e -> e = TypeError.
Proof.
  revert idx html. induction ps as [|p ps IH]; intros idx html; cbn [render_papers]; [done |].
  destruct (render_paper fromisoformat strftime_bdY idx p) as [b|e'] eqn:E; cbn [bind].
  - apply IH.
  - intros [= <-]. by eapply render_paper_type_error.
Qed.

Lemma generate_html_no_papers (now : string) aps :
  Forall (fun ad => papers ad = []) aps ->
  generate_html fromisoformat strftime_bdY now aps = Ok (no_results_page now).
Proof.
  intros H. unfold generate_html, aggregate. rewrite merge_papers_dedup.
  assert (flat_papers aps = []) as ->.
  { unfold flat_papers. induction H as [|ad aps Had _ IH]; [done |].
    cbn [map concat]. by rewrite Had, IH. }
  cbn [dedup sort_by_updated bind length]. unfold no_results_page. by rewrite app_assoc_s.
Qed.
End PageMore.

(** X6: [generate_html] returns a page exactly when the sort succeeds and every
    author name and every category term of the sorted records is a string;
    whatever it raises otherwise is a [TypeError]. *)
Theorem generate_html_ok_iff
    {datetime : Type} (fromisoformat : string -> res datetime)
    (strftime_bdY : datetime -> string) (now : string) (aps : list author_data) :
  (is_ok (generate_html fromisoformat strftime_bdY now aps) = true <->
   exists ps, aggregate aps = Ok ps /\ Forall joinable ps) /\
  (forall e, generate_html fromisoformat strftime_bdY now aps = Raise e -> e = TypeError).
Proof.
  unfold generate_html.
  destruct (aggregate aps) as [ps|e0] eqn:Hagg; cbn [bind].
  - destruct ps as [|p ps].
    + cbn [bind is_ok]. split; [| done]. split; [| done]. intros _. exists []. by split.
    + pose proof (render_papers_ok fromisoformat strftime_bdY 0 (p :: ps) html_head) as Hok.
      destruct (render_papers fromisoformat strftime_bdY 0 (p :: ps) html_head) as [b|e1] eqn:E;
        cbn [bind is_ok] in *.
      * split; [| done]. split; [| done]. intros _. exists (p :: ps). split; [done |].
        by apply Hok.
      * split.
        -- split; [done |]. intros (ps' & [= <-] & Hj). by apply Hok.
        -- intros e [= <-]. by eapply render_papers_type_error.
  - split.
    + split; [done | by intros (ps & ? & _)].
    + intros e [= <-]. unfold aggregate in Hagg. by eapply sort_by_updated_type_error.
Qed.

Example generate_html_nameless :
  generate_html RefDate.fromisoformat RefDate.strftime_bdY "now"
    [AuthorData (Author "A" "a_1" "arxiv") [paper_nameless]] = Raise TypeError.
Proof. vm_compute. reflexivity. Qed.

(** X7: the published text is put into the page as it is.  When
    [fromisoformat] rejects it, the block holds it verbatim between the fixed
    texts around the date, so that markup in it reaches the page. *)
Theorem published_text_unescaped
    {datetime : Type} (fromisoformat : string -> res datetime)
    (strftime_bdY : datetime -> string) (idx : nat) (p : paper) (s block : string) :
  render_paper fromisoformat strftime_bdY idx p = Ok block ->
  published p = Some s ->
  is_ok (fromisoformat (PyStr.replace "Z" "+00:00" s)) = false ->
  (exists pre post, block = pre +:+ tmpl_paper_3 +:+ s +:+ tmpl_paper_4 +:+ post) /\
  forall k, is_markup k = true -> PyStr.count_char k s <= PyStr.count_char k block.
Proof.
  intros H Hp Hno. apply render_paper_block in H as (ja & jc & _ & _ & ->).
  assert (fstr (format_date fromisoformat strftime_bdY (published p)) = s) as Hd.
  { rewrite Hp. cbn [format_date fstr]. unfold format_date_str.
    by destruct (fromisoformat (PyStr.replace "Z" "+00:00" s)). }
  split.
  - rewrite Hd. unfold paper_block.
    exists (tmpl_paper_0 +:+ escape (url p) +:+ tmpl_paper_1 +:+ escape (title p) +:+
             tmpl_paper_2 +:+ escape ja),
           (badge_html p +:+ cats_html jc +:+ tmpl_summary_0 +:+
             ("abstract-" +:+ PyStr.str_of_nat idx) +:+ tmpl_summary_1 +:+
             escape (summary p) +:+ tmpl_summary_2 +:+
             ("abstract-" +:+ PyStr.str_of_nat idx) +:+ tmpl_summary_3).
    by rewrite !app_assoc_s.
  - intros k Hk. rewrite paper_block_markup, Hd by done. lia.
Qed.

Lemma published_text_unescaped_witness :
  exists block,
    render_paper RefDate.fromisoformat RefDate.strftime_bdY 0 paper_raw_date = Ok block /\
    PyStr.contains "<b>soon</b>" block = true.
Proof.
  destruct (render_paper RefDate.fromisoformat RefDate.strftime_bdY 0 paper_raw_date)
    as [block|] eqn:E; [| vm_compute in E; discriminate].
  exists block. split; [reflexivity |].
  destruct (published_text_unescaped _ _ _ _ "<b>soon</b>" _ E eq_refl eq_refl)
    as [(pre & post & ->) _].
  rewrite <- app_assoc_s. apply contains_app_intro.
Defined.

(** ** The parser, once more *)

Section ParserMore.
Variable fromstring : string -> res ET.element.
Implicit Types (s t : string) (c : ascii) (p : paper) (entry : ET.element).



Lemma parse_atom_feed_length xml_text :
  length (parse_atom_feed fromstring xml_text) <= MAX_PAPERS_PER_AUTHOR.
Proof.
  unfold parse_atom_feed, parse_body.
  destruct (fromstring xml_text) as [root|]; cbn [bind]; [| simpl; lia].
  fold (considered root).
  destruct (decide (Forall (fun e => is_ok (process_entry e) = true) (considered root)))
    as [Hall | Hex].
  - rewrite parse_entries_ok by done. cbn [app].
    etrans; [apply entry_papers_length | apply considered_length].
  - apply not_Forall_Exists in Hex; [| apply _].
    assert (Exists (fun e => is_ok (process_entry e) = false) (considered root)) as Hex'.
    { eapply Exists_impl; [exact Hex |]. intros e He. simpl in He. by destruct (is_ok _). }
    apply (parse_entries_raise _ []) in Hex'.
    destruct (parse_entries (considered root) []); [done | simpl; lia].
Qed.
End ParserMore.



(** ** main, once more *)

Section MainMore.
Context {datetime : Type}.
Variable fromisoformat : string -> res datetime.
Variable strftime_bdY : datetime -> string.
Variable urlopen : string -> res string.
Variable fromstring : string -> res ET.element.

Lemma author_papers_length (a : author) :
  length (papers (author_papers urlopen fromstring a)) <= MAX_PAPERS_PER_AUTHOR.
Proof.
  unfold author_papers. destruct (fetch_author_feed urlopen a) as [body|]; [| simpl; lia].
  destruct (PyStr.nonempty body); [| simpl; lia]. apply parse_atom_feed_length.
Qed.

Lemma flat_papers_length (l : list author) :
  length (flat_papers (map (author_papers urlopen fromstring) l))
  <= MAX_PAPERS_PER_AUTHOR * length l.
Proof.
  unfold flat_papers. induction l as [|a l IH]; [simpl; lia |].
  cbn [map concat length]. rewrite length_app.
  pose proof (author_papers_length a). lia.
Qed.

Lemma no_feed_no_papers (a : author) :
  no_feed urlopen fromstring a -> papers (author_papers urlopen fromstring a) = [].
Proof.
  unfold no_feed, author_papers, fetch_author_feed.
  destruct (urlopen (feed_url a)) as [body|]; [| done].
  intros [-> | H]; [done |]. destruct (PyStr.nonempty body); [| done].
  cbn [papers]. unfold parse_atom_feed, parse_body. by destruct (fromstring body).
Qed.
End MainMore.

(** X12: when for every configured author the request fails, or the body is
    empty, or the body is no XML, [main] still returns a page: the one with
    the placeholder and the count 0. *)
Theorem main_without_feeds
    {datetime : Type} (fromisoformat : string -> res datetime)
    (strftime_bdY : datetime -> string) (now : string)
    (urlopen : string -> res string) (fromstring : string -> res ET.element) :
  Forall (no_feed urlopen fromstring) AUTHORS ->
  main fromisoformat strftime_bdY now urlopen fromstring = Ok (no_results_page now).
Proof.
  intros H. unfold main. apply generate_html_no_papers.
  apply Forall_map. eapply Forall_impl; [exact H |].
  intros a Ha. by apply no_feed_no_papers.
Qed.

Lemma main_without_feeds_witness :
  exists html,
    main RefDate.fromisoformat RefDate.strftime_bdY "Jan 06, 2024 at 10:00 AM"
         urlopen_down fromstring_example = Ok html /\
    PyStr.contains "No papers found" html = true /\
    PyStr.contains " | 0 papers displayed</div>" html = true.
Proof.
  eexists. split.
  - apply main_without_feeds. repeat constructor.
  - split; vm_compute; reflexivity.
Defined.

(** X14: the page never shows more papers than [MAX_PAPERS_PER_AUTHOR] for each
    author asked: the aggregated list is no longer than the merged one, which
    is no longer than the papers fetched. *)
Theorem aggregate_length_bound
    (urlopen : string -> res string) (fromstring : string -> res ET.element)
    (l : list author) (out : list paper) :
  aggregate (map (author_papers urlopen fromstring) l) = Ok out ->
  length out = length (merge_papers (map (author_papers urlopen fromstring) l)) /\
  length out <= length (flat_papers (map (author_papers urlopen fromstring) l)) /\
  length out <= MAX_PAPERS_PER_AUTHOR * length l.
Proof.
  intros H. unfold aggregate in H. apply sort_by_updated_perm in H.
  apply Permutation_length in H. rewrite H. split; [done |].
  assert (length (merge_papers (map (author_papers urlopen fromstring) l))
          <= length (flat_papers (map (author_papers urlopen fromstring) l))) as Hle.
  { rewrite merge_papers_dedup. apply sublist_length, dedup_sublist. }
  split; [done |]. etrans; [exact Hle | apply flat_papers_length].
Qed.

Lemma aggregate_length_bound_witness :
  exists out,
    aggregate (map (author_papers urlopen_example fromstring_example) AUTHORS) = Ok out /\
    length out <= 60.
Proof.
  destruct (aggregate (map (author_papers urlopen_example fromstring_example) AUTHORS))
    as [out|] eqn:E; [| vm_compute in E; discriminate].
  exists out. split; [reflexivity |].
  by destruct (aggregate_length_bound _ _ _ _ E) as (_ & _ & H).
Defined.

(** ** The abstract identifiers *)

Lemma str_of_nat_inj (n m : nat) : PyStr.str_of_nat n = PyStr.str_of_nat m -> n = m.
Proof.
  unfold PyStr.str_of_nat. intros H. apply DecimalNat.Unsigned.to_uint_inj.
  assert (forall k, Nat.to_uint k <> Decimal.Nil) as Hnil.
  { intros k Hk. pose proof (DecimalNat.Unsigned.to_of (Nat.to_uint k)) as E.
    rewrite DecimalNat.Unsigned.of_to, Hk in E. done. }
  pose proof (NilZero.usu _ (Hnil n)) as En. pose proof (NilZero.usu _ (Hnil m)) as Em.
  rewrite H in En. congruence.
Qed.

(** X15: the block of a paper carries its [abstract-<index>] identifier twice,
    as the id of the abstract and as the argument of the toggle; the
    identifier holds no quote or angle bracket, and two indices never give the
    same one. *)
Theorem abstract_ids_distinct
    {datetime : Type} (fromisoformat : string -> res datetime)
    (strftime_bdY : datetime -> string) (idx : nat) (p : paper) (block : string) :
  render_paper fromisoformat strftime_bdY idx p = Ok block ->
  (exists pre mid,
     block = pre +:+ tmpl_summary_0 +:+ abstract_id_of idx +:+ tmpl_summary_1 +:+ mid +:+
             tmpl_summary_2 +:+ abstract_id_of idx +:+ tmpl_summary_3) /\
  (forall k, is_markup k = true -> PyStr.count_char k (abstract_id_of idx) = 0) /\
  (forall idx', abstract_id_of idx' = abstract_id_of idx -> idx' = idx).
Proof.
  intros H. apply render_paper_block in H as (ja & jc & _ & _ & ->).
  split; [| split].
  - unfold paper_block. fold (abstract_id_of idx).
    exists (tmpl_paper_0 +:+ escape (url p) +:+ tmpl_paper_1 +:+ escape (title p) +:+
            tmpl_paper_2 +:+ escape ja +:+ tmpl_paper_3 +:+
            fstr (format_date fromisoformat strftime_bdY (published p)) +:+ tmpl_paper_4 +:+
            badge_html p +:+ cats_html jc),
           (escape (summary p)).
    by rewrite !app_assoc_s.
  - intros k Hk. unfold abstract_id_of. rewrite count_char_app, count_char_str_of_nat by done.
    unfold is_markup in Hk. rewrite !orb_true_iff, !Ascii.eqb_eq in Hk.
    destruct Hk as [[[-> | ->] | ->] | ->]; done.
  - intros idx' E. unfold abstract_id_of in E. simpl in E.
    apply str_of_nat_inj. congruence.
Qed.

Lemma abstract_ids_distinct_witness :
  exists block,
    render_paper RefDate.fromisoformat RefDate.strftime_bdY 7 P1 = Ok block /\
    PyStr.contains "toggleAbstract('abstract-7', this)" block = true.
Proof.
  destruct (render_paper RefDate.fromisoformat RefDate.strftime_bdY 7 P1) as [block|] eqn:E;
    [| vm_compute in E; discriminate].
  exists block. split; [reflexivity |].
  destruct (abstract_ids_distinct _ _ _ _ _ E) as [(pre & mid & Hb) _].
  vm_compute in E. injection E as <-. vm_compute. reflexivity.
Defined.

(** ** Entries that are skipped and entries that raise *)

(** X10: an entry without an id element is skipped without an exception as
    soon as its author elements have name children: neither its title nor its
    summary is looked into, so that an empty title element does no harm
    there. *)
Theorem entry_without_id_skipped (entry : ET.element) :
  ET.find (atom "id") entry = None ->
  Forall (fun a => is_Some (ET.find (atom "name") a)) (ET.findall (atom "author") entry) ->
  process_entry entry = Ok None.
Proof.
  intros Hid Hau. unfold process_entry, entry_authors. rewrite Hid.
  assert (exists au,
            comprehension
              (fun a => bind (attr_of (ET.find (atom "name") a)) (fun n => Ok (ET.text n)))
              (ET.findall (atom "author") entry) = Ok au) as [au ->].
  { induction Hau as [|a l [n Hn] _ [au IH]]; [by exists [] |].
    cbn [comprehension]. rewrite Hn, IH. cbn [attr_of bind]. by eexists. }
  cbn [bind extract_arxiv_id]. by destruct (ET.find (atom "title") entry).
Qed.

Lemma entry_without_id_skipped_witness :
  process_entry entry_empty_title_no_id = Ok None /\
  parse_atom_feed (fromstring_const (feed_elem [entry_empty_title_no_id; entry_one]))
                  "<feed>...</feed>" = entry_papers entry_one.
Proof.
  split.
  - apply entry_without_id_skipped; [done |]. vm_compute. repeat constructor; by eexists.
  - vm_compute. reflexivity.
Defined.

(** X11: an id element without text makes the entry raise [TypeError], title or
    no title, and a summary element without text makes an entry with title
    and id raise [AttributeError]; either way the feed yields no paper. *)
Theorem empty_id_or_summary_raises (entry : ET.element) (au : list (option string)) :
  entry_authors entry = Ok au ->
  (forall ie, ET.find (atom "id") entry = Some ie -> ET.text ie = None ->
              process_entry entry = Raise TypeError) /\
  (forall t ie se title_text u,
     ET.find (atom "title") entry = Some t -> ET.text t = Some title_text ->
     ET.find (atom "id") entry = Some ie -> ET.text ie = Some u ->
     ET.find (atom "summary") entry = Some se -> ET.text se = None ->
     process_entry entry = Raise AttributeError) /\
  (forall (fromstring : string -> res ET.element) xml_text root,
     fromstring xml_text = Ok root -> entry ∈ considered root ->
     is_ok (process_entry entry) = false ->
     parse_atom_feed fromstring xml_text = []).
Proof.
  intros Hau. split; [| split].
  - intros ie Hie Ht. unfold process_entry. rewrite Hau, Hie. cbn [bind extract_arxiv_id].
    by rewrite Ht.
  - intros t ie se tt u Ht Htt Hie Hu Hse Hst. unfold process_entry.
    rewrite Hau, Hie, Ht, Hse. cbn [bind extract_arxiv_id]. rewrite Hu, Htt, Hst.
    destruct (arxiv_id_of_url_spec u) as [[_ (pre & i & -> & _)] | [_ ->]]; done.
  - intros fs xml root Hroot Hin Hraise. unfold parse_atom_feed, parse_body.
    rewrite Hroot. cbn [bind]. fold (considered root).
    assert (Exists (fun e => is_ok (process_entry e) = false) (considered root)) as Hex
      by (apply Exists_exists; eauto).
    apply (parse_entries_raise _ []) in Hex.
    by destruct (parse_entries (considered root) []).
Qed.

Lemma empty_id_or_summary_raises_witness :
  process_entry entry_empty_id = Raise TypeError /\
  process_entry entry_empty_summary = Raise AttributeError /\
  parse_atom_feed (fromstring_const (feed_elem [entry_one; entry_empty_id])) "<feed>...</feed>"
  = [].
Proof.
  destruct (empty_id_or_summary_raises entry_empty_id [Some "A. Author"] eq_refl)
    as (H1 & _ & H3).
  destruct (empty_id_or_summary_raises entry_empty_summary [] eq_refl) as (_ & H2 & _).
  split; [| split].
  - by apply (H1 (leaf "id" None)).
  - by eapply (H2 (leaf "title" (Some "No abstract"))
                  (leaf "id" (Some "http://arxiv.org/abs/2401.00006v1")) (leaf "summary" None)).
  - apply (H3 _ _ (feed_elem [entry_one; entry_empty_id]) eq_refl).
    + vm_compute. apply list_elem_of_further, list_elem_of_here.
    + by rewrite (H1 (leaf "id" None)).
Defined.

(** ** A date that is [None], and an author without a feed *)

(** X8: a record whose published value is [None] is rendered, with the text
    [None] in the place of the date. *)
Theorem published_none_rendered
    {datetime : Type} (fromisoformat : string -> res datetime)
    (strftime_bdY : datetime -> string) (idx : nat) (p : paper) :
  published p = None -> joinable p ->
  exists block pre post,
    render_paper fromisoformat strftime_bdY idx p = Ok block /\
    block = pre +:+ tmpl_paper_3 +:+ "None" +:+ tmpl_paper_4 +:+ post.
Proof.
  intros Hp Hj. apply (render_paper_ok fromisoformat strftime_bdY idx) in Hj.
  destruct (render_paper fromisoformat strftime_bdY idx p) as [block|] eqn:E; [| done].
  exists block. apply render_paper_block in E as (ja & jc & _ & _ & ->).
  rewrite Hp. cbn [format_date fstr]. unfold paper_block.
  exists (tmpl_paper_0 +:+ escape (url p) +:+ tmpl_paper_1 +:+ escape (title p) +:+
             tmpl_paper_2 +:+ escape ja),
         (badge_html p +:+ cats_html jc +:+ tmpl_summary_0 +:+
             ("abstract-" +:+ PyStr.str_of_nat idx) +:+ tmpl_summary_1 +:+
             escape (summary p) +:+ tmpl_summary_2 +:+
             ("abstract-" +:+ PyStr.str_of_nat idx) +:+ tmpl_summary_3).
  split; [done |]. by rewrite !app_assoc_s.
Qed.

Lemma published_none_rendered_witness :
  exists block,
    render_paper RefDate.fromisoformat RefDate.strftime_bdY 0 paper_no_date = Ok block /\
    PyStr.contains "None</span>" block = true.
Proof.
  destruct (published_none_rendered RefDate.fromisoformat RefDate.strftime_bdY 0 paper_no_date)
    as (block & pre & post & E & _).
  - reflexivity.
  - split; repeat constructor; by eexists.
  - exists block. split; [exact E |].
    vm_compute in E. injection E as <-. vm_compute. reflexivity.
Defined.

(** X13: an author whose request fails, or whose body is empty or no XML, changes
    nothing for the others: the page is the one of the author list without
    that author. *)
Theorem failed_author_isolated
    {datetime : Type} (fromisoformat : string -> res datetime)
    (strftime_bdY : datetime -> string) (now : string)
    (urlopen : string -> res string) (fromstring : string -> res ET.element)
    (before after : list author) (a : author) :
  no_feed urlopen fromstring a ->
  generate_html fromisoformat strftime_bdY now
                (map (author_papers urlopen fromstring) (before ++ a :: after))
  = generate_html fromisoformat strftime_bdY now
                  (map (author_papers urlopen fromstring) (before ++ after)).
Proof.
  intros Ha. unfold generate_html, aggregate.
  rewrite (merge_papers_of_flat
             (map (author_papers urlopen fromstring) (before ++ a :: after))
             (map (author_papers urlopen fromstring) (before ++ after))); [done |].
  rewrite !map_app, !flat_papers_app. f_equal. unfold flat_papers. cbn [map concat].
  by rewrite (no_feed_no_papers _ _ _ Ha).
Qed.

Lemma failed_author_isolated_witness :
  main RefDate.fromisoformat RefDate.strftime_bdY "Jan 06, 2024 at 10:00 AM"
       urlopen_example fromstring_example
  = generate_html RefDate.fromisoformat RefDate.strftime_bdY "Jan 06, 2024 at 10:00 AM"
      (map (author_papers urlopen_example fromstring_example)
           [Author "Alex Bartel" "bartel_a_1" "arxiv";
            Author "Dan Loughran" "0000-0001-5892-1564" "orcid"]).
Proof.
  exact (failed_author_isolated RefDate.fromisoformat RefDate.strftime_bdY
           "Jan 06, 2024 at 10:00 AM" urlopen_example fromstring_example
           [Author "Alex Bartel" "bartel_a_1" "arxiv"]
           [Author "Dan Loughran" "0000-0001-5892-1564" "orcid"]
           (Author "Ross Paterson" "paterson_r_1" "arxiv") I).
Defined.
